(** * usaid_pdf2sheet: table extraction from a PDF into CSV and a spreadsheet

    A shallow embedding of [usaid_pdf2sheet.py].  The script is a straight
    pipeline:

      - open the document and walk its pages, collecting the rows of every
        page's first detected table into [all_rows];
      - build a data frame from [all_rows[1:]] with [all_rows[0]] as the
        column labels;
      - write the frame to [usaid_defunded.csv] and [usaid_defunded.xlsx],
        both with [index=False].

    The script's own statements are embedded in [Module Script].  The library
    calls it makes ([pdfplumber], [pandas], and through [pandas] the [csv]
    writer of the Python standard library and the workbook writer) are not
    part of the repository; each is embedded by a model of the behaviour of
    the library routine that the call reaches, named after that routine.
    Where that behaviour differs between versions of the libraries, none of
    which the repository pins, the difference is a field of
    [Script.runtime].  The libraries are taken as installed.  The script
    never reads its output back; the reader used to state what the CSV file
    holds is marked as modelled from the specification.

    A text is a sequence of characters; every character that the libraries
    treat specially is an ASCII character, and an [ascii] stands for one
    character. *)

From Stdlib Require Import Ascii.
From stdpp Require Import list fin_maps gmap pretty strings.

(** ** Python values and exceptions *)

Module Py.

(** The exceptions that the statements of the script can raise. *)
Inductive exn : Type :=
| IndexError             (* list index out of range *)
| ValueError             (* pandas: "k columns passed, passed data had n
                            columns"; "This sheet is too large!" *)
| FileNotFoundError      (* pdfplumber.open on a missing path *)
| PdfParseError          (* pdfplumber.open on a file that is not a PDF *)
| IllegalCharacterError  (* openpyxl: "... cannot be used in worksheets." *)
| CsvError.              (* csv.Error: malformed input of the reader *)

Inductive result (A : Type) : Type :=
| Ok (a : A)
| Raise (e : exn).
Arguments Ok {A} a.
Arguments Raise {A} e.

Definition bind {A B} (m : result A) (k : A → result B) : result B :=
  match m with
  | Ok a => k a
  | Raise e => Raise e
  end.

(** [l[i]]: raises [IndexError] out of range. *)
Definition getitem {A} (l : list A) (i : nat) : result A :=
  match l !! i with
  | Some x => Ok x
  | None => Raise IndexError
  end.

(** [l[i:]]: slicing never raises. *)
Definition slice_from {A} (i : nat) (l : list A) : list A := drop i l.

(** Truth value of a list: empty lists are falsy. *)
Definition list_truthy {A} (l : list A) : bool :=
  match l with
  | [] => false
  | _ :: _ => true
  end.

(** Truth value of an optional list: [None] and [[]] are both falsy. *)
Definition truthy {A} (o : option (list A)) : bool :=
  match o with
  | None => false
  | Some l => list_truthy l
  end.

End Py.

#[global] Instance result_bind : MBind Py.result :=
  λ A B k m, Py.bind m k.

(** ** Cells, rows and tables *)

(** A cell of an extracted table is a text or Python's [None]. *)
Abbreviation cell := (option string) (only parsing).
Abbreviation row := (list cell) (only parsing).
Abbreviation table := (list row) (only parsing).

(** ** pdfplumber *)

Module pdfplumber.

(** A page is opaque to the script: all it does with one is to call
    [page.extract_table()], which returns the first table found on the page
    as a list of rows, or [None] when no table is found. *)
Record Page : Type := { extract_table : option table }.

Record PDF : Type := { pages : list Page }.

End pdfplumber.

(** ** The csv module of the Python standard library

    [pandas] writes through [csv.writer(handle, lineterminator=...,
    delimiter=',', quoting=QUOTE_MINIMAL, doublequote=True, escapechar=None,
    quotechar=double quote)]. *)

Module csv.

Definition delimiter : ascii := ","%char.
Definition quotechar : ascii := "034"%char.
Definition LF : ascii := "010"%char.
Definition CR : ascii := "013"%char.

(** The delimiter as a text, as it is put between two fields. *)
Definition comma : string := String delimiter EmptyString.

Fixpoint mem (c : ascii) (s : string) : bool :=
  match s with
  | EmptyString => false
  | String d s' => Ascii.eqb c d || mem c s'
  end.

(** The characters for which [join_append_data] leaves the plain path: the
    delimiter, the quote character and the characters of the line
    terminator.  From CPython 3.13 on, line feed and carriage return are
    among them whatever the line terminator ([quote_newlines]); before, a
    carriage return is special only when the line terminator has one. *)
Definition special (quote_newlines : bool) (lineterminator : string)
    (c : ascii) : bool :=
  Ascii.eqb c delimiter || Ascii.eqb c quotechar
  || (quote_newlines && (Ascii.eqb c LF || Ascii.eqb c CR))
  || mem c lineterminator.

(** [join_append_data]: copies the field, doubling every quote character
    (doublequote=True), and reports whether the field must be quoted. *)
Fixpoint join_append_data (quote_newlines : bool) (lineterminator : string)
    (field : string) : string * bool :=
  match field with
  | EmptyString => (EmptyString, false)
  | String c rest =>
      let '(out, quoted) :=
        join_append_data quote_newlines lineterminator rest in
      if special quote_newlines lineterminator c then
        if Ascii.eqb c quotechar
        then (String quotechar (String c out), true)
        else (String c out, true)
      else (String c out, quoted)
  end.

Definition quote (s : string) : string :=
  String quotechar (s +:+ String quotechar EmptyString).

(** [join_append]: one field as it appears in the record. *)
Definition join_append (quote_newlines : bool) (lineterminator : string)
    (field : string) : string :=
  let '(out, quoted) := join_append_data quote_newlines lineterminator field in
  if quoted then quote out else out.

Definition is_empty (s : string) : bool :=
  match s with
  | EmptyString => true
  | String _ _ => false
  end.

(** The text of a record before its line terminator: the fields joined by
    the delimiter; a record that has fields but no text (a single empty
    field) is written as an empty quoted field. *)
Definition record (quote_newlines : bool) (lineterminator : string)
    (fields : list string) : string :=
  let rec := String.concat comma
               (join_append quote_newlines lineterminator <$> fields) in
  if Py.list_truthy fields && is_empty rec then quote EmptyString else rec.

(** [writerow]: the record, ended by the line terminator. *)
Definition writerow (quote_newlines : bool) (lineterminator : string)
    (fields : list string) : string :=
  record quote_newlines lineterminator fields +:+ lineterminator.

Fixpoint writerows (quote_newlines : bool) (lineterminator : string)
    (rows : list (list string)) : string :=
  match rows with
  | [] => EmptyString
  | r :: rows' =>
      writerow quote_newlines lineterminator r
      +:+ writerows quote_newlines lineterminator rows'
  end.

(** [field] with every quote character doubled. *)
Fixpoint double_quotes (field : string) : string :=
  match field with
  | EmptyString => EmptyString
  | String c rest =>
      if Ascii.eqb c quotechar
      then String quotechar (String c (double_quotes rest))
      else String c (double_quotes rest)
  end.

(** A field that the writer copies as it is: none of its characters is
    special. *)
Fixpoint plain (quote_newlines : bool) (lineterminator : string)
    (field : string) : bool :=
  match field with
  | EmptyString => true
  | String c rest =>
      negb (special quote_newlines lineterminator c)
      && plain quote_newlines lineterminator rest
  end.

(** A row whose record is the plain join of its fields: every field is
    plain, and the row is not the single empty field. *)
Definition plain_row (quote_newlines : bool) (lineterminator : string)
    (fields : list string) : Prop :=
  Forall (λ f, plain quote_newlines lineterminator f = true) fields
  ∧ fields ≠ [EmptyString].

(** *** Reading the file back

    Modelled from the spec: the loader of the round-trip property ("loading
    the produced comma-separated file"), which the repository does not
    contain.  It is the reader for the dialect the file is written in: the
    state machine of [csv.reader] with the writer's delimiter and quote
    character, doublequote=True, no escape character, strict=False, fed with
    the lines of a file opened with newline=''.

    The functions of the state machine take a flag [universal]: whether a
    carriage return ends a line as a line feed does.  For [csv.reader] it
    does ([reader]); the machine under which only a line feed ends a line
    serves to show that the written text determines the rows. *)

Inductive mode : Type :=
| START_RECORD | START_FIELD | IN_FIELD
| IN_QUOTED_FIELD | QUOTE_IN_QUOTED_FIELD | EAT_CRNL.

Record parser : Type :=
  { state : mode; field : string; fields : list string }.

Definition parse_reset : parser :=
  {| state := START_RECORD; field := EmptyString; fields := [] |}.

Definition set_state (m : mode) (p : parser) : parser :=
  {| state := m; field := field p; fields := fields p |}.

Definition parse_add_char (c : ascii) (p : parser) : parser :=
  {| state := state p;
     field := field p +:+ String c EmptyString;
     fields := fields p |}.

Definition parse_save_field (p : parser) : parser :=
  {| state := state p; field := EmptyString; fields := fields p ++ [field p] |}.

Definition is_newline (universal : bool) (c : ascii) : bool :=
  Ascii.eqb c LF || (universal && Ascii.eqb c CR).

(** [parse_process_char]; [None] stands for the end-of-line mark that the
    reader processes after the characters of every line. *)
Definition parse_process_char (universal : bool) (p : parser)
    (c : option ascii) : Py.result parser :=
  let start_field (p : parser) : Py.result parser :=
    match c with
    | None => Py.Ok (set_state START_RECORD (parse_save_field p))
    | Some c =>
        if is_newline universal c
        then Py.Ok (set_state EAT_CRNL (parse_save_field p))
        else if Ascii.eqb c quotechar then Py.Ok (set_state IN_QUOTED_FIELD p)
        else if Ascii.eqb c delimiter then Py.Ok (parse_save_field p)
        else Py.Ok (set_state IN_FIELD (parse_add_char c p))
    end in
  match state p with
  | START_RECORD =>
      match c with
      | None => Py.Ok p
      | Some c' =>
          if is_newline universal c' then Py.Ok (set_state EAT_CRNL p)
          else start_field (set_state START_FIELD p)
      end
  | START_FIELD => start_field p
  | IN_FIELD =>
      match c with
      | None => Py.Ok (set_state START_RECORD (parse_save_field p))
      | Some c =>
          if is_newline universal c
          then Py.Ok (set_state EAT_CRNL (parse_save_field p))
          else if Ascii.eqb c delimiter
          then Py.Ok (set_state START_FIELD (parse_save_field p))
          else Py.Ok (parse_add_char c p)
      end
  | IN_QUOTED_FIELD =>
      match c with
      | None => Py.Ok p
      | Some c =>
          if Ascii.eqb c quotechar then Py.Ok (set_state QUOTE_IN_QUOTED_FIELD p)
          else Py.Ok (parse_add_char c p)
      end
  | QUOTE_IN_QUOTED_FIELD =>
      match c with
      | None => Py.Ok (set_state START_RECORD (parse_save_field p))
      | Some c =>
          if Ascii.eqb c quotechar
          then Py.Ok (set_state IN_QUOTED_FIELD (parse_add_char c p))
          else if Ascii.eqb c delimiter
          then Py.Ok (set_state START_FIELD (parse_save_field p))
          else if is_newline universal c
          then Py.Ok (set_state EAT_CRNL (parse_save_field p))
          else Py.Ok (set_state IN_FIELD (parse_add_char c p))
      end
  | EAT_CRNL =>
      match c with
      | None => Py.Ok (set_state START_RECORD p)
      | Some c =>
          if is_newline universal c then Py.Ok p else Py.Raise Py.CsvError
      end
  end.

(** A line of the file ends after a line feed, after a carriage return that
    no line feed follows (when carriage returns end lines), and at the end
    of the text. *)
Definition ends_line (universal : bool) (c : ascii) (rest : string) : bool :=
  Ascii.eqb c LF
  || (universal && Ascii.eqb c CR
      && negb match rest with
              | String d _ => Ascii.eqb d LF
              | EmptyString => false
              end)
  || is_empty rest.

(** The records read from [text] by a parser in state [p], after the records
    [out]: a record is complete when the end of a line leaves the parser in
    [START_RECORD]. *)
Fixpoint read (universal : bool) (p : parser) (text : string)
    (out : list (list string)) : Py.result (list (list string)) :=
  match text with
  | EmptyString =>
      if negb (is_empty (field p))
         || match state p with IN_QUOTED_FIELD => true | _ => false end
      then Py.Ok (out ++ [fields (parse_save_field p)])
      else Py.Ok out
  | String c rest =>
      match parse_process_char universal p (Some c) with
      | Py.Raise e => Py.Raise e
      | Py.Ok p1 =>
          if ends_line universal c rest then
            match parse_process_char universal p1 None with
            | Py.Raise e => Py.Raise e
            | Py.Ok p2 =>
                match state p2 with
                | START_RECORD =>
                    read universal parse_reset rest (out ++ [fields p2])
                | _ => read universal p2 rest out
                end
            end
          else read universal p1 rest out
      end
  end.

(** [list(csv.reader(f))]: every record of the text. *)
Definition reader (text : string) : Py.result (list (list string)) :=
  read true parse_reset text [].

End csv.

(** ** pandas *)

Module pd.

(** A data frame built from a list of rows: the column labels and the
    two-dimensional block of values, one list per record.  The row index is
    the default [RangeIndex] 0..n-1 and is not stored. *)
Record frame : Type := { columns : list cell; values : list (list cell) }.

(** Width of the widest row: the [k] of [lib.to_object_array]. *)
Definition width (rows : list row) : nat :=
  foldr Nat.max 0 (length <$> rows).

(** [lib.to_object_array]: an n-by-k object array, initially all [None],
    into which each row is copied from position 0. *)
Definition to_object_array (rows : list row) : list row :=
  let k := width rows in
  (λ r, r ++ replicate (k - length r) None) <$> rows.

(** [pd.DataFrame(data, columns=columns)] for a list of rows.  An empty
    [data] gives the empty frame with the given labels.  Otherwise the rows
    go through [to_object_array], and the labels are checked against the
    array's width ([_validate_or_indexify_columns]); a mismatch raises
    [ValueError]. *)
Definition DataFrame (data : list row) (columns : row) : Py.result frame :=
  if Py.list_truthy data then
    let content := to_object_array data in
    if decide (length columns = width data)
    then Py.Ok {| columns := columns; values := content |}
    else Py.Raise Py.ValueError
  else Py.Ok {| columns := columns; values := [] |}.

(** Missing values are written as [na_rep], whose default is the empty
    text. *)
Definition na_rep (c : cell) : string := default EmptyString c.

(** The values of a row as the texts handed to the csv writer. *)
Definition format_row (r : row) : list string := na_rep <$> r.

(** The labels 0..n-1 of the default row index. *)
Definition index_labels (n : nat) : list string := pretty <$> seq 0 n.

(** The rows handed to the csv writer: the header, then one row per
    record; with [index=True] every row is preceded by its index label
    (the header by an empty label). *)
Definition csv_rows (df : frame) (index : bool) : list (list string) :=
  let header := format_row (columns df) in
  let body := format_row <$> values df in
  if index
  then (EmptyString :: header)
         :: zip_with cons (index_labels (length body)) body
  else header :: body.

(** [df.to_csv(path, index=index)]: the text written to the file by the csv
    writer of the running Python ([quote_newlines], see [csv.special]). *)
Definition to_csv (quote_newlines : bool) (df : frame) (index : bool)
    (lineterminator : string) : string :=
  csv.writerows quote_newlines lineterminator (csv_rows df index).

(** *** The workbook writer *)

(** The largest sheet: [ExcelFormatter.max_rows] and [max_cols]. *)
Definition max_rows : N := 1048576.
Definition max_cols : N := 16384.

(** openpyxl keeps the first 32767 characters of a text. *)
Definition max_cell_length : nat := N.to_nat 32767.

(** openpyxl's [ILLEGAL_CHARACTERS_RE]: the control characters 0 to 8, 11,
    12 and 14 to 31. *)
Definition illegal_character (c : ascii) : bool :=
  let n := N_of_ascii c in
  (n <=? 8)%N || ((11 <=? n)%N && (n <=? 12)%N)
  || ((14 <=? n)%N && (n <=? 31)%N).

Fixpoint take_chars (n : nat) (s : string) : string :=
  match n, s with
  | S n', String c s' => String c (take_chars n' s')
  | _, _ => EmptyString
  end.

Fixpoint has_illegal_character (s : string) : bool :=
  match s with
  | EmptyString => false
  | String c s' => illegal_character c || has_illegal_character s'
  end.

(** [Cell.check_string]: the text is cut to the largest length, and what is
    left must be free of illegal characters. *)
Definition check_string (value : string) : Py.result string :=
  let value := take_chars max_cell_length value in
  if has_illegal_character value
  then Py.Raise Py.IllegalCharacterError
  else Py.Ok value.

(** Setting the value of a sheet cell. *)
Definition bind_value (c : cell) : Py.result cell :=
  match c with
  | None => Py.Ok None
  | Some s => s' ← check_string s; Py.Ok (Some s')
  end.

Fixpoint write_row (cells : list cell) : Py.result (list cell) :=
  match cells with
  | [] => Py.Ok []
  | c :: cells' =>
      c' ← bind_value c; r ← write_row cells'; Py.Ok (c' :: r)
  end.

Fixpoint write_cells (rows : list (list cell)) : Py.result (list (list cell)) :=
  match rows with
  | [] => Py.Ok []
  | r :: rows' =>
      r' ← write_row r; s ← write_cells rows'; Py.Ok (r' :: s)
  end.

(** The cells handed to the workbook writer: the labels as they are, then
    the records with every missing value replaced by [na_rep]; with
    [index=True] every row is preceded by its index label (the header by a
    blank cell). *)
Definition excel_rows (df : frame) (index : bool) : list (list cell) :=
  let header := columns df in
  let body := fmap (M:=list) (λ c, Some (na_rep c)) <$> values df in
  if index
  then (None :: header)
         :: zip_with cons (Some <$> index_labels (length body)) body
  else header :: body.

(** [df.to_excel(path, index=index)]: the cell grid of the single sheet of
    the workbook.  A frame larger than a sheet raises [ValueError] before
    anything is written; a cell that the sheet refuses raises
    [IllegalCharacterError]. *)
Definition to_excel (df : frame) (index : bool)
  : Py.result (list (list cell)) :=
  if (max_rows <? N.of_nat (length (values df)))%N
     || (max_cols <? N.of_nat (length (columns df)))%N
  then Py.Raise Py.ValueError
  else write_cells (excel_rows df index).

(** The records of a frame, each pairing the column labels with the values
    at the same positions. *)
Definition records (df : frame) : list (list (cell * cell)) :=
  zip (columns df) <$> values df.

End pd.

(** ** Texts as a reader of the files sees them *)

Module Textfile.

Definition line_feed : ascii := "010"%char.
Definition carriage_return : ascii := "013"%char.

Fixpoint contains (c : ascii) (s : string) : bool :=
  match s with
  | EmptyString => false
  | String d s' => Ascii.eqb d c || contains c s'
  end.

(** The lines of a text as a reader in text mode sees them: a line ends at a
    line feed, at a carriage return, at a carriage return followed by a line
    feed, and at the end of the text; the line breaks are dropped. *)
Fixpoint lines (s : string) : list string :=
  match s with
  | EmptyString => []
  | String c s' =>
      if Ascii.eqb c line_feed then EmptyString :: lines s'
      else if Ascii.eqb c carriage_return then
        match s' with
        | String d _ =>
            if Ascii.eqb d line_feed then lines s' else EmptyString :: lines s'
        | EmptyString => [EmptyString]
        end
      else match lines s' with
           | [] => [String c EmptyString]
           | l :: ls => String c l :: ls
           end
  end.

(** The text of a cell: a missing value is the empty text. *)
Definition cell_text (c : cell) : string :=
  match c with
  | Some s => s
  | None => EmptyString
  end.

Definition row_texts (r : row) : list string := cell_text <$> r.

(** The values joined by commas. *)
Definition joined (r : row) : string := String.concat "," (row_texts r).

(** A text that stands in a CSV record as it is: it has no comma, no double
    quote and no line break. *)
Fixpoint bare (s : string) : bool :=
  match s with
  | EmptyString => true
  | String c s' =>
      negb (Ascii.eqb c ","%char) && negb (Ascii.eqb c "034"%char)
      && negb (Ascii.eqb c line_feed) && negb (Ascii.eqb c carriage_return)
      && bare s'
  end.

(** A row whose record needs no quoting: every text is bare, and the row is
    not a single empty text. *)
Definition needs_no_quoting (r : row) : Prop :=
  Forall (λ c, bare (cell_text c) = true) r
  ∧ row_texts r ≠ [EmptyString].

(** No cell of the rows contains the character. *)
Definition free_of (c : ascii) (rows : list row) : Prop :=
  Forall (Forall (λ x, contains c (cell_text x) = false)) rows.

(** A cell that a sheet stores as it is: a text of at most 32767 characters
    none of which is a control character other than tab, line feed and
    carriage return; or a missing value. *)
Definition storable (c : cell) : bool :=
  (N.of_nat (String.length (cell_text c)) <=? 32767)%N
  && negb (pd.has_illegal_character (cell_text c)).

End Textfile.

(** ** The file system *)

Inductive file : Type :=
| Pdf (doc : pdfplumber.PDF)
| Text (content : string)
| Workbook (sheet : list (list cell)).

(** ** The script *)

Module Script.
Import pdfplumber.

Definition input_path : string := "defunded.pdf".
Definition csv_path : string := "usaid_defunded.csv".
Definition xlsx_path : string := "usaid_defunded.xlsx".

(** [os.linesep], the default line terminator of [to_csv], on a POSIX
    system. *)
Definition linesep : string := String csv.LF EmptyString.

(** What a run depends on besides the files, and the repository does not
    pin: whether the csv writer quotes every line feed and carriage return
    (CPython 3.13 and later), and what a failed [to_excel] leaves at the
    path of the workbook, if anything (pandas saves what was written before
    the failure when it closes the writer; the cells it holds are not
    modelled). *)
Record runtime : Type :=
  { csv_quotes_newlines : bool;
    excel_leftover : pd.frame → option (list (list cell)) }.

(** The body of the [for] loop: one page's table, when truthy, is appended
    to [all_rows] by [extend]. *)
Definition loop_body (all_rows : list row) (page : Page) : list row :=
  let table := extract_table page in
  if Py.truthy table then all_rows ++ default [] table else all_rows.

(** Lines 5-9: [all_rows] after the loop over [pdf.pages]. *)
Definition all_rows (pdf : PDF) : list row :=
  foldl loop_body [] (pages pdf).

(** Line 12: [pd.DataFrame(all_rows[1:], columns=all_rows[0])].  The
    positional argument is evaluated before the keyword argument. *)
Definition structure (all_rows : list row) : Py.result pd.frame :=
  let data := Py.slice_from 1 all_rows in
  header ← Py.getitem all_rows 0;
  pd.DataFrame data header.

(** Lines 5-14 on an open document: the files after the run and its
    outcome, the frame [df] when every statement succeeded.  Line 13 has
    written the CSV file when line 14 starts on the workbook. *)
Definition script (rt : runtime) (pdf : PDF) (fs : gmap string file)
  : gmap string file * Py.result pd.frame :=
  match structure (all_rows pdf) with
  | Py.Raise e => (fs, Py.Raise e)
  | Py.Ok df =>
      let text := pd.to_csv (csv_quotes_newlines rt) df false linesep in
      let fs1 := <[csv_path := Text text]> fs in
      match pd.to_excel df false with
      | Py.Ok sheet => (<[xlsx_path := Workbook sheet]> fs1, Py.Ok df)
      | Py.Raise e =>
          (match excel_leftover rt df with
           | Some sheet => <[xlsx_path := Workbook sheet]> fs1
           | None => fs1
           end, Py.Raise e)
      end
  end.

(** The whole program: [pdfplumber.open] on the fixed path, then the
    script. *)
Definition main (rt : runtime) (fs : gmap string file)
  : gmap string file * Py.result pd.frame :=
  match fs !! input_path with
  | Some (Pdf pdf) => script rt pdf fs
  | Some _ => (fs, Py.Raise Py.PdfParseError)
  | None => (fs, Py.Raise Py.FileNotFoundError)
  end.

End Script.

(** ** Reloading the CSV file

    Modelled from the spec: "loading the produced comma-separated file and
    re-deriving a structured table", for which the repository has no code.
    The file is read by [csv.reader], every field read is a text cell, and the
    rows read are structured as line 12 structures the aggregate. *)
Definition reload (text : string) : Py.result pd.frame :=
  rows ← csv.reader text;
  Script.structure (fmap (M:=list) Some <$> rows).

(** The cell values of a frame as text. *)
Definition as_text (df : pd.frame) : pd.frame :=
  {| pd.columns := Some <$> Textfile.row_texts (pd.columns df);
     pd.values := (λ r, Some <$> Textfile.row_texts r) <$> pd.values df |}.

(** ** Sample documents *)

Module Samples.
Import pdfplumber.

(** A line feed. *)
Definition NL : string := String "010"%char EmptyString.

Definition page_with (t : table) : Page := {| extract_table := Some t |}.
Definition page_without : Page := {| extract_table := None |}.

Definition name_amount : row := [Some "Name"; Some "Amount"].

(** Two pages: a header and one record, then one more record. *)
Definition two_pages : PDF :=
  {| pages := [ page_with [name_amount; [Some "A"; Some "10"]];
                page_with [[Some "B"; Some "20"]] ] |}.

(** As [two_pages], but the record of the second page lacks its last
    cell. *)
Definition short_row : PDF :=
  {| pages := [ page_with [name_amount; [Some "A"; Some "10"]];
                page_with [[Some "B"]] ] |}.

(** A record with one cell more than the header. *)
Definition long_row : PDF :=
  {| pages := [ page_with [name_amount; [Some "A"; Some "10"; Some "x"]] ] |}.

(** The only detected table is a single row. *)
Definition header_only : PDF :=
  {| pages := [ page_without; page_with [name_amount] ] |}.

(** A cell whose text runs over two lines. *)
Definition multiline_cell : PDF :=
  {| pages := [ page_with [[Some "Item"; Some "Note"];
                           [Some "A"; Some ("x" +:+ NL +:+ "y")]] ] |}.

(** No page has a table. *)
Definition no_tables : PDF :=
  {| pages := [ page_without; page_with []; page_without ] |}.

(** A label with a comma, above a cell whose text runs over two lines. *)
Definition quoted_cells : PDF :=
  {| pages := [ page_with [[Some "Item, kind"; Some "Note"];
                           [Some "A"; Some ("x" +:+ NL +:+ "y")]] ] |}.

(** A cell with a carriage return between two letters. *)
Definition carriage_return_cell : PDF :=
  {| pages := [ page_with [[Some "Item"; Some "Note"];
                           [Some "A";
                            Some (String "x" (String "013" (String "y" EmptyString)))]] ] |}.

(** A cell with the control character 1 between two letters. *)
Definition control_character_cell : PDF :=
  {| pages := [ page_with [[Some "a"];
                           [Some (String "x" (String "001" (String "y" EmptyString)))]] ] |}.

(** A runtime whose csv writer quotes every line break (CPython 3.13), and
    one whose csv writer quotes the characters of the line terminator only
    (CPython 3.11).  What a failed workbook write leaves behind is taken to
    be an empty sheet; no property depends on that choice. *)
Definition cpython_3_13 : Script.runtime :=
  {| Script.csv_quotes_newlines := true;
     Script.excel_leftover := λ _, Some [] |}.
Definition cpython_3_11 : Script.runtime :=
  {| Script.csv_quotes_newlines := false;
     Script.excel_leftover := λ _, Some [] |}.

End Samples.

(** ** Shapes of documents *)

(** A page whose table has [R] rows of [K] cells. *)
Definition uniform_page (K R : nat) (p : pdfplumber.Page) : Prop :=
  ∃ t, pdfplumber.extract_table p = Some t
       ∧ length t = R ∧ Forall (λ r, length r = K) t.

(** A table that a sheet stores as it is: within the largest sheet, and every
    cell storable. *)
Definition sheet_ready (hdr : row) (data : list row) : Prop :=
  (N.of_nat (length data) ≤ 1048576)%N
  ∧ (N.of_nat (length hdr) ≤ 16384)%N
  ∧ Forall (λ c, Textfile.storable c = true) hdr
  ∧ Forall (Forall (λ c, Textfile.storable c = true)) data.

(** ** Sample file systems *)

Module Disks.
Import pdfplumber Samples.

(** The document of [two_pages] at the input path, and nothing else. *)
Definition fresh : gmap string file :=
  {[ Script.input_path := Pdf two_pages ]}.

(** Every page repeats the header row above its record. *)
Definition repeated_header : PDF :=
  {| pages := [ page_with [name_amount; [Some "A"; Some "10"]];
                page_with [name_amount; [Some "B"; Some "20"]] ] |}.

(** Two pages without a table before the first table. *)
Definition late_table : PDF :=
  {| pages := [ page_without; page_with [];
                page_with [name_amount; [Some "A"; Some "10"]] ] |}.

End Disks.

(** * Properties *)

Import pdfplumber Script Samples Disks.

(** ** Aggregation *)

Section aggregation.
Implicit Types (acc : list row) (ps : list Page) (p : Page).

Lemma loop_body_spec acc p :
  loop_body acc p = acc ++ default [] (extract_table p).
Proof.
  unfold loop_body. destruct (extract_table p) as [[|r t]|]; simpl; try done.
  all: by rewrite app_nil_r.
Qed.

Lemma foldl_loop_body acc ps :
  foldl loop_body acc ps = acc ++ concat (omap extract_table ps).
Proof.
  revert acc. induction ps as [|p ps IH]; intros acc; simpl.
  - by rewrite app_nil_r.
  - rewrite IH, loop_body_spec.
    destruct (extract_table p) as [t|]; simpl.
    + by rewrite <- app_assoc.
    + by rewrite app_nil_r.
Qed.

Lemma all_rows_concat pdf :
  all_rows pdf = concat (omap extract_table (pages pdf)).
Proof. unfold all_rows. by rewrite foldl_loop_body. Qed.

Lemma all_rows_app ps1 ps2 :
  all_rows {| pages := ps1 ++ ps2 |}
  = all_rows {| pages := ps1 |} ++ all_rows {| pages := ps2 |}.
Proof.
  rewrite !all_rows_concat. simpl. by rewrite omap_app, concat_app.
Qed.

Lemma all_rows_falsy ps :
  Forall (λ p, Py.truthy (extract_table p) = false) ps →
  all_rows {| pages := ps |} = [].
Proof.
  rewrite all_rows_concat. simpl.
  induction 1 as [|p ps Hp _ IH]; simpl; [done|].
  destruct (extract_table p) as [[|r t]|]; simpl in *; done.
Qed.

End aggregation.

(** C1.  The aggregated row set is the concatenation, in page order, of the
    tables of the pages on which a table was detected: pages without a table
    are skipped, and every row of every detected table appears once, in its
    original position relative to the others. *)
Theorem aggregate_is_concatenation (pdf : PDF) :
  all_rows pdf = concat (omap extract_table (pages pdf)).
Proof. apply all_rows_concat. Qed.

(** C10.  A page whose extraction returns the empty list of rows is treated
    like a page without a table: the loop body leaves [all_rows] as it is, and
    the aggregate of the document equals the aggregate with that page replaced
    by a page without a table, and the aggregate with that page removed. *)
Theorem empty_table_page_is_skipped (before after : list Page) (acc : list row) :
  let empty := {| extract_table := Some [] |} in
  let absent := {| extract_table := None |} in
  loop_body acc empty = acc
  ∧ loop_body acc empty = loop_body acc absent
  ∧ all_rows {| pages := before ++ empty :: after |}
    = all_rows {| pages := before ++ absent :: after |}
  ∧ all_rows {| pages := before ++ empty :: after |}
    = all_rows {| pages := before ++ after |}.
Proof.
  intros empty absent. split_and!; try done.
  - rewrite !all_rows_concat; simpl. by rewrite !omap_app, !concat_app.
  - rewrite !all_rows_concat; simpl. by rewrite !omap_app, !concat_app.
Qed.

(** ** Texts *)

#[local] Arguments Ascii.eqb : simpl never.

Section texts.
Implicit Types (s t : string) (c : ascii).

Lemma append_nil_l s : EmptyString +:+ s = s.
Proof. reflexivity. Qed.

Lemma append_cons c s t : String c s +:+ t = String c (s +:+ t).
Proof. reflexivity. Qed.

Lemma append_nil_r s : s +:+ EmptyString = s.
Proof.
  induction s as [|c s IH]; [done|]. by rewrite append_cons, IH.
Qed.

Lemma append_assoc s t u : (s +:+ t) +:+ u = s +:+ (t +:+ u).
Proof.
  induction s as [|c s IH]; [done|]. by rewrite !append_cons, IH.
Qed.

Lemma mem_append c s t : csv.mem c (s +:+ t) = csv.mem c s || csv.mem c t.
Proof.
  induction s as [|d s IH]; [done|].
  rewrite append_cons. simpl. by rewrite IH, orb_assoc.
Qed.

Lemma contains_mem c s : Textfile.contains c s = csv.mem c s.
Proof.
  induction s as [|d s IH]; [done|]. simpl. by rewrite IH, Ascii.eqb_sym.
Qed.

(** A text without line break, followed by a line feed, is one line. *)
Lemma lines_append_LF s t :
  csv.mem csv.LF s = false → csv.mem csv.CR s = false →
  Textfile.lines (s +:+ String csv.LF t) = s :: Textfile.lines t.
Proof.
  induction s as [|c s IH]; [done|].
  rewrite append_cons. simpl.
  intros [Hlf Hs]%orb_false_elim [Hcr Hs']%orb_false_elim.
  change Textfile.line_feed with csv.LF.
  change Textfile.carriage_return with csv.CR.
  rewrite Ascii.eqb_sym, Hlf, Ascii.eqb_sym, Hcr. by rewrite (IH Hs Hs').
Qed.

Lemma take_chars_all n s : String.length s ≤ n → pd.take_chars n s = s.
Proof.
  revert n. induction s as [|c s IH]; intros [|n] Hn; simpl in *;
    try done; try lia.
  rewrite IH; [done|lia].
Qed.

End texts.

(** ** Structuring *)

Section structuring.
Implicit Types (rows data : list row) (r hdr : row).

Lemma width_cons r rows : pd.width (r :: rows) = length r `max` pd.width rows.
Proof. done. Qed.

Lemma width_ge rows r : r ∈ rows → length r ≤ pd.width rows.
Proof.
  induction 1 as [r rows|r r' rows _ IH]; rewrite width_cons; lia.
Qed.

(** The width of a non-empty block is the length of one of its rows. *)
Lemma width_attained rows :
  rows ≠ [] → ∃ r, r ∈ rows ∧ length r = pd.width rows.
Proof.
  induction rows as [|r rows IH]; [done|]. intros _.
  rewrite width_cons. destruct (decide (pd.width rows ≤ length r)) as [Hle|Hgt].
  - exists r. split; [left|lia].
  - destruct rows as [|r' rows]; [unfold pd.width in Hgt; simpl in Hgt; lia|].
    destruct IH as (r0 & Hin & Hlen); [done|].
    exists r0. split; [by right|lia].
Qed.

Lemma width_uniform rows k :
  rows ≠ [] → Forall (λ r, length r = k) rows → pd.width rows = k.
Proof.
  intros Hne Hall. destruct (width_attained rows Hne) as (r & Hin & <-).
  by apply (proj1 (Forall_forall _ _) Hall).
Qed.

Lemma to_object_array_length rows :
  length (pd.to_object_array rows) = length rows.
Proof. unfold pd.to_object_array. by rewrite length_fmap. Qed.

Lemma to_object_array_lookup rows i r :
  rows !! i = Some r →
  pd.to_object_array rows !! i
  = Some (r ++ replicate (pd.width rows - length r) None).
Proof.
  intros Hi. unfold pd.to_object_array. by rewrite list_lookup_fmap, Hi.
Qed.

Lemma to_object_array_widths rows :
  Forall (λ r, length r = pd.width rows) (pd.to_object_array rows).
Proof.
  unfold pd.to_object_array. apply Forall_fmap, Forall_forall.
  intros r Hin; simpl. apply width_ge in Hin.
  rewrite length_app, length_replicate. lia.
Qed.

Lemma to_object_array_uniform rows k :
  Forall (λ r, length r = k) rows → pd.to_object_array rows = rows.
Proof.
  intros Hall. destruct (decide (rows = [])) as [->|Hne]; [done|].
  unfold pd.to_object_array. rewrite (width_uniform rows k Hne Hall).
  clear Hne. induction Hall as [|r rows Hr _ IH]; [done|].
  rewrite fmap_cons, IH, Hr, Nat.sub_diag. simpl. by rewrite app_nil_r.
Qed.

(** Position [j] of a padded row holds the row's own value, or [None] past
    the row's end. *)
Lemma padded_lookup r k (j : nat) :
  j < length r + k →
  (r ++ replicate k None) !! j = Some (mjoin (r !! j)).
Proof.
  intros Hj. destruct (decide (j < length r)) as [Hlt|Hge].
  - rewrite lookup_app_l by done.
    destruct (lookup_lt_is_Some_2 r j Hlt) as [v Hv]. by rewrite Hv.
  - rewrite lookup_app_r by lia.
    rewrite (lookup_ge_None_2 r j) by lia. simpl.
    apply lookup_replicate_2. lia.
Qed.

Lemma structure_nil : structure [] = Py.Raise Py.IndexError.
Proof. done. Qed.

Lemma structure_cons hdr data :
  structure (hdr :: data) = pd.DataFrame data hdr.
Proof. done. Qed.

Lemma DataFrame_nil hdr :
  pd.DataFrame [] hdr = Py.Ok {| pd.columns := hdr; pd.values := [] |}.
Proof. done. Qed.

Lemma DataFrame_Ok data hdr df :
  pd.DataFrame data hdr = Py.Ok df →
  df = {| pd.columns := hdr; pd.values := pd.to_object_array data |}
  ∧ (data ≠ [] → length hdr = pd.width data).
Proof.
  unfold pd.DataFrame. destruct data as [|r data]; simpl.
  - intros [= <-]. done.
  - case_decide; [|done]. intros [= <-]. done.
Qed.

Lemma DataFrame_mismatch data hdr :
  data ≠ [] → pd.width data ≠ length hdr →
  pd.DataFrame data hdr = Py.Raise Py.ValueError.
Proof.
  intros Hne Hw. unfold pd.DataFrame. destruct data as [|r data]; [done|].
  simpl. case_decide; [|done]. congruence.
Qed.

Lemma DataFrame_uniform data hdr :
  Forall (λ r, length r = length hdr) data →
  pd.DataFrame data hdr = Py.Ok {| pd.columns := hdr; pd.values := data |}.
Proof.
  intros Hall. destruct data as [|r data]; [done|].
  unfold pd.DataFrame.
  rewrite (to_object_array_uniform _ _ Hall).
  rewrite (width_uniform (r :: data) (length hdr)) by done. simpl.
  by rewrite decide_True.
Qed.

End structuring.

(** ** The workbook writer *)

Section workbook.
Implicit Types (c : option string) (r cells : list (option string))
  (rows sheet : list (list (option string))) (df : pd.frame).

Lemma write_row_length cells r :
  pd.write_row cells = Py.Ok r → length r = length cells.
Proof.
  revert r. induction cells as [|c cells IH]; intros r; simpl.
  - by intros [= <-].
  - destruct (pd.bind_value c) as [c'|]; [simpl|done].
    destruct (pd.write_row cells) as [r'|]; [simpl|done].
    intros [= <-]. simpl. by rewrite (IH r').
Qed.

Lemma write_cells_shape (K : nat) rows sheet :
  pd.write_cells rows = Py.Ok sheet →
  length sheet = length rows
  ∧ (Forall (λ r, length r = K) rows → Forall (λ r, length r = K) sheet).
Proof.
  revert sheet. induction rows as [|r rows IH]; intros sheet; simpl.
  - by intros [= <-].
  - destruct (pd.write_row r) as [r'|] eqn:Hr; [simpl|done].
    destruct (pd.write_cells rows) as [s|]; [simpl|done].
    intros [= <-]. destruct (IH s eq_refl) as [Hlen Hw].
    split; [simpl; by rewrite Hlen|].
    intros [Hk Hall]%Forall_cons. constructor; [|by apply Hw].
    by rewrite (write_row_length _ _ Hr).
Qed.

Lemma to_excel_Ok_inv df sheet :
  pd.to_excel df false = Py.Ok sheet →
  pd.write_cells (pd.excel_rows df false) = Py.Ok sheet.
Proof. unfold pd.to_excel. by case_match. Qed.

(** The sheet of a rectangular frame has one row per record under the
    header row, each of as many cells as there are labels. *)
Lemma to_excel_dims df sheet :
  pd.to_excel df false = Py.Ok sheet →
  Forall (λ r, length r = length (pd.columns df)) (pd.values df) →
  length sheet = S (length (pd.values df))
  ∧ Forall (λ r, length r = length (pd.columns df)) sheet.
Proof.
  intros Hx%to_excel_Ok_inv Hrect.
  destruct (write_cells_shape (length (pd.columns df)) _ _ Hx) as [Hlen Hw].
  unfold pd.excel_rows in *. simpl in Hlen. rewrite length_fmap in Hlen.
  split; [done|]. apply Hw. constructor; [done|].
  apply Forall_fmap. eapply Forall_impl; [exact Hrect|].
  intros r Hr. simpl. by rewrite length_fmap.
Qed.

Lemma check_string_storable (s : string) :
  Textfile.storable (Some s) = true → pd.check_string s = Py.Ok s.
Proof.
  unfold Textfile.storable. simpl.
  intros [Hlen Hill%negb_true_iff]%andb_true_iff.
  apply N.leb_le in Hlen. unfold pd.check_string.
  rewrite take_chars_all by (unfold pd.max_cell_length; lia).
  by rewrite Hill.
Qed.

Lemma bind_value_storable c :
  Textfile.storable c = true → pd.bind_value c = Py.Ok c.
Proof.
  destruct c as [s|]; [|done]. intros H. simpl.
  by rewrite (check_string_storable s H).
Qed.

Lemma bind_value_na_rep c :
  Textfile.storable c = true →
  pd.bind_value (Some (pd.na_rep c)) = Py.Ok (Some (Textfile.cell_text c)).
Proof.
  intros H. destruct c as [s|]; [by apply bind_value_storable|done].
Qed.

Lemma write_row_cons c cells :
  pd.write_row (c :: cells)
  = (c' ← pd.bind_value c; r ← pd.write_row cells; Py.Ok (c' :: r)).
Proof. done. Qed.

Lemma write_cells_cons r rows :
  pd.write_cells (r :: rows)
  = (r' ← pd.write_row r; s ← pd.write_cells rows; Py.Ok (r' :: s)).
Proof. done. Qed.

Lemma write_row_storable r :
  Forall (λ c, Textfile.storable c = true) r → pd.write_row r = Py.Ok r.
Proof.
  induction 1 as [|c r Hc _ IH]; [done|]. simpl.
  by rewrite (bind_value_storable c Hc), IH.
Qed.

Lemma write_row_na_rep r :
  Forall (λ c, Textfile.storable c = true) r →
  pd.write_row ((λ c, Some (pd.na_rep c)) <$> r)
  = Py.Ok (Some <$> Textfile.row_texts r).
Proof.
  induction 1 as [|c r Hc _ IH]; [done|].
  rewrite fmap_cons, write_row_cons.
  by rewrite (bind_value_na_rep c Hc), IH.
Qed.

Lemma write_cells_na_rep rows :
  Forall (Forall (λ c, Textfile.storable c = true)) rows →
  pd.write_cells (fmap (M:=list) (λ c, Some (pd.na_rep c)) <$> rows)
  = Py.Ok ((λ r, Some <$> Textfile.row_texts r) <$> rows).
Proof.
  induction 1 as [|r rows Hr _ IH]; [done|].
  rewrite fmap_cons, write_cells_cons.
  by rewrite (write_row_na_rep r Hr), IH.
Qed.

(** A table that is ready for a sheet is written as it is, every missing
    value of a record as the empty text. *)
Lemma to_excel_ready (hdr : list (option string)) rows :
  sheet_ready hdr rows →
  pd.to_excel {| pd.columns := hdr; pd.values := rows |} false
  = Py.Ok (hdr :: ((λ r, Some <$> Textfile.row_texts r) <$> rows)).
Proof.
  intros (Hrows & Hcols & Hhdr & Hdata). unfold pd.to_excel. simpl.
  assert ((pd.max_rows <? N.of_nat (length rows))%N = false) as ->
    by (apply N.ltb_ge; exact Hrows).
  assert ((pd.max_cols <? N.of_nat (length hdr))%N = false) as ->
    by (apply N.ltb_ge; exact Hcols).
  simpl. unfold pd.excel_rows. simpl.
  by rewrite (write_row_storable hdr Hhdr), (write_cells_na_rep rows Hdata).
Qed.

End workbook.

(** ** Runs *)

Section runs.
Implicit Types (rt : runtime) (pdf : PDF) (fs : gmap string file)
  (df : pd.frame).

(** A failure of the structuring statement leaves the files untouched. *)
Lemma script_raise rt pdf fs e :
  structure (all_rows pdf) = Py.Raise e → script rt pdf fs = (fs, Py.Raise e).
Proof. intros H. unfold script. by rewrite H. Qed.

Lemma script_Ok rt pdf fs df sheet :
  structure (all_rows pdf) = Py.Ok df →
  pd.to_excel df false = Py.Ok sheet →
  script rt pdf fs
  = (<[xlsx_path := Workbook sheet]>
       (<[csv_path := Text (pd.to_csv (csv_quotes_newlines rt) df false
                              linesep)]> fs), Py.Ok df).
Proof. intros H Hx. unfold script. by rewrite H, Hx. Qed.

Lemma script_excel_raise rt pdf fs df e :
  structure (all_rows pdf) = Py.Ok df →
  pd.to_excel df false = Py.Raise e →
  script rt pdf fs
  = (match excel_leftover rt df with
     | Some sheet =>
         <[xlsx_path := Workbook sheet]>
           (<[csv_path := Text (pd.to_csv (csv_quotes_newlines rt) df false
                                  linesep)]> fs)
     | None =>
         <[csv_path := Text (pd.to_csv (csv_quotes_newlines rt) df false
                               linesep)]> fs
     end, Py.Raise e).
Proof.
  intros H Hx. unfold script. rewrite H, Hx. by destruct (excel_leftover rt df).
Qed.

Lemma script_Ok_inv rt pdf fs fs' df :
  script rt pdf fs = (fs', Py.Ok df) →
  structure (all_rows pdf) = Py.Ok df
  ∧ ∃ sheet, pd.to_excel df false = Py.Ok sheet
      ∧ fs' = <[xlsx_path := Workbook sheet]>
                (<[csv_path := Text (pd.to_csv (csv_quotes_newlines rt) df
                                       false linesep)]> fs).
Proof.
  unfold script. destruct (structure (all_rows pdf)) as [df'|e]; [|done].
  destruct (pd.to_excel df' false) as [sheet|e] eqn:Hx.
  - intros [= <- <-]. split; [done|]. by exists sheet.
  - by destruct (excel_leftover rt df').
Qed.

(** Once the structuring statement has succeeded, the CSV file is written,
    whatever becomes of the workbook. *)
Lemma script_csv_written rt pdf fs df :
  structure (all_rows pdf) = Py.Ok df →
  (script rt pdf fs).1 !! csv_path
  = Some (Text (pd.to_csv (csv_quotes_newlines rt) df false linesep)).
Proof.
  intros H. unfold script. rewrite H.
  destruct (pd.to_excel df false) as [sheet|e]; simpl.
  - rewrite lookup_insert_ne by done. by rewrite lookup_insert_eq.
  - destruct (excel_leftover rt df).
    + rewrite lookup_insert_ne by done. by rewrite lookup_insert_eq.
    + by rewrite lookup_insert_eq.
Qed.

Lemma main_opens_document rt pdf fs :
  fs !! input_path = Some (Pdf pdf) → main rt fs = script rt pdf fs.
Proof. intros H. unfold main. by rewrite H. Qed.

Lemma main_missing_document rt fs :
  fs !! input_path = None → main rt fs = (fs, Py.Raise Py.FileNotFoundError).
Proof. intros H. unfold main. by rewrite H. Qed.

End runs.

(** C2.  When the aggregate is not empty and the structuring statement
    succeeds, the field names of the structured table are element 0 of the
    aggregate, in order; there is one record per remaining element, in order;
    and the record made from a row pairs, position by position, the field
    names with the row's values (a position past the row's end holds a missing
    value).  When every row is as long as the header, the records are the
    remaining elements themselves. *)
Theorem structured_table_of_aggregate (hdr : row) (rest : list row) (df : pd.frame) :
  structure (hdr :: rest) = Py.Ok df →
  pd.columns df = hdr
  ∧ length (pd.values df) = length rest
  ∧ (∀ i r, rest !! i = Some r →
       ∃ vals, pd.values df !! i = Some vals
         ∧ pd.records df !! i = Some (zip hdr vals)
         ∧ length vals = length hdr
         ∧ ∀ j, j < length hdr → vals !! j = Some (mjoin (r !! j)))
  ∧ (Forall (λ r, length r = length hdr) rest → pd.values df = rest).
Proof.
  rewrite structure_cons. intros Hdf.
  destruct (DataFrame_Ok _ _ _ Hdf) as [-> Hw]. simpl.
  split_and!; [done|apply to_object_array_length| |].
  - intros i r Hi.
    assert (rest ≠ []) as Hne by (intros ->; done).
    assert (length r ≤ pd.width rest) as Hle
      by (apply width_ge; eapply list_elem_of_lookup_2; done).
    specialize (Hw Hne).
    exists (r ++ replicate (pd.width rest - length r) None).
    pose proof (to_object_array_lookup rest i r Hi) as Hlk.
    split_and!.
    + done.
    + unfold pd.records; simpl. by rewrite list_lookup_fmap, Hlk.
    + rewrite length_app, length_replicate. lia.
    + intros j Hj. apply padded_lookup. lia.
  - apply to_object_array_uniform.
Qed.

Lemma structured_table_of_aggregate_witness :
  structure (name_amount :: [[Some "A"; Some "10"]; [Some "B"]])
  = Py.Ok {| pd.columns := name_amount;
             pd.values := [[Some "A"; Some "10"]; [Some "B"; None]] |}
  ∧ pd.columns {| pd.columns := name_amount;
                  pd.values := [[Some "A"; Some "10"]; [Some "B"; None]] |}
    = name_amount.
Proof.
  split; [reflexivity|].
  exact (proj1 (structured_table_of_aggregate name_amount
                  [[Some "A"; Some "10"]; [Some "B"]] _ eq_refl)).
Defined.

(** C3 (as amended).  When some data row of the aggregate is longer than the
    header row, or there are data rows and all of them are shorter than the
    header row, the structuring statement raises and the run ends there with
    no file written. *)
Theorem ragged_rows_fail (rt : runtime) (pdf : PDF) (fs : gmap string file)
    (hdr : row) (data : list row) :
  all_rows pdf = hdr :: data →
  (∃ r, r ∈ data ∧ length hdr < length r)
  ∨ (data ≠ [] ∧ Forall (λ r, length r < length hdr) data) →
  structure (all_rows pdf) = Py.Raise Py.ValueError
  ∧ script rt pdf fs = (fs, Py.Raise Py.ValueError).
Proof.
  intros Hagg Hshape.
  assert (structure (all_rows pdf) = Py.Raise Py.ValueError) as Hraise.
  { rewrite Hagg, structure_cons.
    destruct Hshape as [(r & Hin & Hlong)|[Hne Hshort]].
    - apply DataFrame_mismatch; [by intros ->; inversion Hin|].
      apply width_ge in Hin. lia.
    - apply DataFrame_mismatch; [done|].
      destruct (width_attained data Hne) as (r & Hin & <-).
      apply (proj1 (Forall_forall _ _) Hshort) in Hin. lia. }
  split; [done|]. by apply script_raise.
Qed.

Lemma ragged_rows_fail_witness :
  all_rows long_row = name_amount :: [[Some "A"; Some "10"; Some "x"]]
  ∧ script cpython_3_13 long_row ∅ = (∅, Py.Raise Py.ValueError).
Proof.
  split; [reflexivity|].
  refine (proj2 (ragged_rows_fail cpython_3_13 long_row ∅ name_amount
                   [[Some "A"; Some "10"; Some "x"]] eq_refl _)).
  left. exists [Some "A"; Some "10"; Some "x"]. split; [left|simpl; lia].
Defined.

(** C3 fails as stated: in the aggregate of [short_row] the data row [B] has
    one cell and the header has two, yet the structuring statement succeeds,
    padding the row with a missing value, and the CSV file is written. *)
Lemma short_row_is_padded :
  all_rows short_row = [name_amount; [Some "A"; Some "10"]; [Some "B"]]
  ∧ length [Some "B"] ≠ length name_amount
  ∧ (script cpython_3_13 short_row ∅).2
    = Py.Ok {| pd.columns := name_amount;
               pd.values := [[Some "A"; Some "10"]; [Some "B"; None]] |}
  ∧ (script cpython_3_13 short_row ∅).1 !! csv_path
    = Some (Text ("Name,Amount" +:+ NL +:+ "A,10" +:+ NL +:+ "B," +:+ NL)).
Proof. split_and!; [reflexivity|simpl; lia|reflexivity|vm_compute; reflexivity]. Qed.

(** C4.  When no page yields a table (none detected, or an empty one), the
    aggregate is empty, the structuring statement raises [IndexError] on
    [all_rows[0]], and the run ends there: the files are as they were before
    the run, so no output file is produced. *)
Theorem no_table_run_fails (rt : runtime) (pdf : PDF) (fs : gmap string file) :
  Forall (λ p, Py.truthy (extract_table p) = false) (pages pdf) →
  all_rows pdf = []
  ∧ structure (all_rows pdf) = Py.Raise Py.IndexError
  ∧ script rt pdf fs = (fs, Py.Raise Py.IndexError).
Proof.
  intros Hnone. destruct pdf as [ps]; simpl in Hnone.
  pose proof (all_rows_falsy ps Hnone) as Hagg.
  split_and!; [done|by rewrite Hagg|].
  apply script_raise. by rewrite Hagg.
Qed.

Lemma no_table_run_fails_witness :
  Forall (λ p, Py.truthy (extract_table p) = false) (pages no_tables)
  ∧ script cpython_3_13 no_tables ∅ = (∅, Py.Raise Py.IndexError).
Proof.
  assert (Forall (λ p, Py.truthy (extract_table p) = false) (pages no_tables))
    as H by (repeat constructor).
  split; [exact H|].
  exact (proj2 (proj2 (no_table_run_fails cpython_3_13 no_tables ∅ H))).
Defined.

(** ** The CSV writer *)

Section writer.
Variables (q : bool) (lt : string).
Implicit Types (f : string) (fields : list string) (c : ascii).

Lemma plain_cons c f :
  csv.plain q lt (String c f) = true →
  csv.special q lt c = false ∧ csv.plain q lt f = true.
Proof.
  simpl. intros [Hc Hf]%andb_true_iff. by apply negb_true_iff in Hc.
Qed.

Lemma special_false c :
  csv.special q lt c = false →
  Ascii.eqb c csv.delimiter = false ∧ Ascii.eqb c csv.quotechar = false
  ∧ (q = true → Ascii.eqb c csv.LF = false ∧ Ascii.eqb c csv.CR = false)
  ∧ csv.mem c lt = false.
Proof.
  unfold csv.special. intros H.
  apply orb_false_elim in H as [H Hlt].
  apply orb_false_elim in H as [H Hq].
  apply orb_false_elim in H as [Hd Hquote].
  split_and!; try done. intros ->. simpl in Hq.
  by apply orb_false_elim in Hq.
Qed.

Lemma join_append_data_plain f :
  csv.plain q lt f = true → csv.join_append_data q lt f = (f, false).
Proof.
  induction f as [|c f IH]; [done|].
  intros [Hc Hf]%plain_cons. simpl. by rewrite (IH Hf), Hc.
Qed.

Lemma join_append_plain f :
  csv.plain q lt f = true → csv.join_append q lt f = f.
Proof.
  intros Hf. unfold csv.join_append. by rewrite join_append_data_plain.
Qed.

Lemma fmap_join_append_plain fields :
  Forall (λ f, csv.plain q lt f = true) fields →
  csv.join_append q lt <$> fields = fields.
Proof.
  induction 1 as [|f fields Hf _ IH]; [done|].
  by rewrite fmap_cons, IH, join_append_plain.
Qed.

Lemma concat_cons2 sep f g fields :
  String.concat sep (f :: g :: fields)
  = f +:+ sep +:+ String.concat sep (g :: fields).
Proof. reflexivity. Qed.

(** Only the rows [[]] and [[EmptyString]] join to the empty text. *)
Lemma concat_comma_empty fields :
  csv.is_empty (String.concat csv.comma fields) = true →
  fields = [] ∨ fields = [EmptyString].
Proof.
  destruct fields as [|f [|g fields]]; [by left| |].
  - simpl. destruct f; [by right|done].
  - rewrite concat_cons2. destruct f; done.
Qed.

Lemma mem_concat_comma c fields :
  Ascii.eqb c csv.delimiter = false →
  Forall (λ f, csv.mem c f = false) fields →
  csv.mem c (String.concat csv.comma fields) = false.
Proof.
  intros Hc. induction 1 as [|f fields Hf Hall IH]; [done|].
  destruct fields as [|g fields]; [done|].
  rewrite concat_cons2, !mem_append, Hf, IH. simpl. by rewrite Hc.
Qed.

Lemma record_plain fields :
  csv.plain_row q lt fields →
  csv.record q lt fields = String.concat csv.comma fields.
Proof.
  intros [Hplain Hne]. unfold csv.record.
  rewrite (fmap_join_append_plain _ Hplain).
  destruct (csv.is_empty (String.concat csv.comma fields)) eqn:He.
  - apply concat_comma_empty in He as [-> | ->]; done.
  - by rewrite andb_false_r.
Qed.

Lemma join_append_data_spec f :
  csv.join_append_data q lt f
  = (csv.double_quotes f, negb (csv.plain q lt f)).
Proof.
  induction f as [|c f IH]; [done|]. simpl. rewrite IH.
  destruct (csv.special q lt c) eqn:Hc; simpl.
  - by destruct (Ascii.eqb c csv.quotechar).
  - apply special_false in Hc as (_ & -> & _). done.
Qed.

Lemma double_quotes_plain f :
  csv.plain q lt f = true → csv.double_quotes f = f.
Proof.
  intros Hf. pose proof (join_append_data_spec f) as H.
  rewrite (join_append_data_plain f Hf) in H. by injection H.
Qed.

Lemma join_append_spec f :
  csv.join_append q lt f
  = if csv.plain q lt f then f else csv.quote (csv.double_quotes f).
Proof.
  unfold csv.join_append. rewrite join_append_data_spec.
  destruct (csv.plain q lt f) eqn:Hf; simpl; [|done].
  by apply double_quotes_plain.
Qed.

Lemma join_append_is_empty f :
  csv.is_empty (csv.join_append q lt f) = csv.is_empty f.
Proof.
  rewrite join_append_spec. destruct (csv.plain q lt f) eqn:Hf; [done|].
  by destruct f.
Qed.

(** Quoting adds no character but quote characters. *)
Lemma mem_double_quotes c f :
  Ascii.eqb c csv.quotechar = false →
  csv.mem c (csv.double_quotes f) = csv.mem c f.
Proof.
  intros Hc. induction f as [|d f IH]; [done|]. simpl.
  destruct (Ascii.eqb d csv.quotechar) eqn:Hd; simpl; rewrite IH; [|done].
  apply Ascii.eqb_eq in Hd as ->. by rewrite Hc.
Qed.

Lemma mem_quote c f :
  Ascii.eqb c csv.quotechar = false →
  csv.mem c (csv.quote f) = csv.mem c f.
Proof.
  intros Hc. unfold csv.quote. simpl. rewrite Hc, mem_append. simpl.
  by rewrite Hc, !orb_false_r.
Qed.

Lemma mem_join_append c f :
  Ascii.eqb c csv.quotechar = false →
  csv.mem c (csv.join_append q lt f) = csv.mem c f.
Proof.
  intros Hc. rewrite join_append_spec. destruct (csv.plain q lt f); [done|].
  by rewrite mem_quote, mem_double_quotes.
Qed.

Lemma mem_record c fields :
  Ascii.eqb c csv.quotechar = false →
  Ascii.eqb c csv.delimiter = false →
  Forall (λ f, csv.mem c f = false) fields →
  csv.mem c (csv.record q lt fields) = false.
Proof.
  intros Hq Hd Hall. unfold csv.record.
  destruct (Py.list_truthy fields && csv.is_empty _).
  - simpl. by rewrite Hq.
  - apply mem_concat_comma; [done|]. apply Forall_fmap.
    eapply Forall_impl; [exact Hall|]. intros f Hf. simpl.
    by rewrite mem_join_append.
Qed.

End writer.

(** *** With the POSIX line terminator *)

Section posix.
Variable q : bool.
Implicit Types (f : string) (fields : list string) (c : ascii)
  (rows : list (list string)).

Lemma plain_no_LF f : csv.plain q linesep f = true → csv.mem csv.LF f = false.
Proof.
  induction f as [|c f IH]; [done|].
  intros [Hc Hf]%plain_cons. apply special_false in Hc as (_ & _ & _ & Hc).
  simpl in Hc. apply orb_false_elim in Hc as [Hc _].
  simpl. by rewrite Ascii.eqb_sym, Hc, (IH Hf).
Qed.

Lemma writerow_append fields (rest : string) :
  csv.writerow q linesep fields +:+ rest
  = csv.record q linesep fields +:+ String csv.LF rest.
Proof.
  unfold csv.writerow, linesep.
  by rewrite append_assoc, append_cons, append_nil_l.
Qed.

(** When no field has a line break, the text written has one line per row,
    the row's record. *)
Lemma lines_writerows_records rows :
  Forall (Forall (λ f, csv.mem csv.LF f = false)) rows →
  Forall (Forall (λ f, csv.mem csv.CR f = false)) rows →
  Textfile.lines (csv.writerows q linesep rows) = csv.record q linesep <$> rows.
Proof.
  induction 1 as [|r rows Hr _ IH]; [done|].
  intros [Hr' Hrows]%Forall_cons.
  rewrite fmap_cons. simpl csv.writerows. rewrite writerow_append.
  rewrite lines_append_LF by (by apply mem_record). by rewrite IH.
Qed.

(** The first line is the record of the first row, whatever follows. *)
Lemma first_line_writerows fields rows :
  Forall (λ f, csv.mem csv.LF f = false) fields →
  Forall (λ f, csv.mem csv.CR f = false) fields →
  head (Textfile.lines (csv.writerows q linesep (fields :: rows)))
  = Some (csv.record q linesep fields).
Proof.
  intros H H'. simpl csv.writerows. rewrite writerow_append.
  by rewrite lines_append_LF by (by apply mem_record).
Qed.

Lemma bare_cons c f :
  Textfile.bare (String c f) = true →
  Ascii.eqb c csv.delimiter = false ∧ Ascii.eqb c csv.quotechar = false
  ∧ Ascii.eqb c csv.LF = false ∧ Ascii.eqb c csv.CR = false
  ∧ Textfile.bare f = true.
Proof.
  simpl. change Textfile.line_feed with csv.LF.
  change Textfile.carriage_return with csv.CR.
  change ","%char with csv.delimiter. change "034"%char with csv.quotechar.
  destruct (Ascii.eqb c csv.delimiter), (Ascii.eqb c csv.quotechar),
    (Ascii.eqb c csv.LF), (Ascii.eqb c csv.CR); done.
Qed.

Lemma bare_plain f : Textfile.bare f = true → csv.plain q linesep f = true.
Proof.
  induction f as [|c f IH]; [done|].
  intros (Hd & Hq & Hlf & Hcr & Hf)%bare_cons. simpl. rewrite (IH Hf).
  unfold csv.special. simpl csv.mem. rewrite Hd, Hq, Hlf, Hcr.
  by destruct q.
Qed.

Lemma bare_no_break f :
  Textfile.bare f = true →
  csv.mem csv.LF f = false ∧ csv.mem csv.CR f = false.
Proof.
  induction f as [|c f IH]; [done|].
  intros (Hd & Hq & Hlf & Hcr & Hf)%bare_cons. destruct (IH Hf) as [H1 H2].
  simpl. by rewrite (Ascii.eqb_sym csv.LF), Hlf, (Ascii.eqb_sym csv.CR), Hcr.
Qed.

Lemma format_row_texts (r : list (option string)) :
  pd.format_row r = Textfile.row_texts r.
Proof.
  unfold pd.format_row, Textfile.row_texts. apply list_fmap_ext.
  by intros i [s|] _.
Qed.

Lemma needs_no_quoting_plain_row (r : list (option string)) :
  Textfile.needs_no_quoting r → csv.plain_row q linesep (pd.format_row r).
Proof.
  intros [Hbare Hne]. rewrite format_row_texts. split; [|done].
  unfold Textfile.row_texts. apply Forall_fmap.
  eapply Forall_impl; [exact Hbare|]. intros c Hc. simpl.
  by apply bare_plain.
Qed.

Lemma needs_no_quoting_no_break (c : ascii) (r : list (option string)) :
  c = csv.LF ∨ c = csv.CR →
  Textfile.needs_no_quoting r →
  Forall (λ f, csv.mem c f = false) (pd.format_row r).
Proof.
  intros Hc [Hbare _]. rewrite format_row_texts.
  unfold Textfile.row_texts. apply Forall_fmap.
  eapply Forall_impl; [exact Hbare|]. intros x Hx. simpl.
  destruct (bare_no_break _ Hx) as [H1 H2]. by destruct Hc as [->| ->].
Qed.

(** With rows that need no quoting, every line is the row's texts joined by
    commas. *)
Lemma lines_writerows (rs : list (list (option string))) :
  Forall Textfile.needs_no_quoting rs →
  Textfile.lines (csv.writerows q linesep (pd.format_row <$> rs))
  = (λ r, String.concat csv.comma (pd.format_row r)) <$> rs.
Proof.
  intros H. rewrite lines_writerows_records.
  - rewrite <- list_fmap_compose. apply Forall_fmap_ext_1.
    eapply Forall_impl; [exact H|]. intros r Hr. simpl.
    by apply record_plain, needs_no_quoting_plain_row.
  - apply Forall_fmap. eapply Forall_impl; [exact H|]. intros r Hr.
    apply needs_no_quoting_no_break; auto.
  - apply Forall_fmap. eapply Forall_impl; [exact H|]. intros r Hr.
    apply needs_no_quoting_no_break; auto.
Qed.

Lemma free_of_mem (c : ascii) (rs : list (list (option string))) :
  Textfile.free_of c rs →
  Forall (Forall (λ f, csv.mem c f = false)) (pd.format_row <$> rs).
Proof.
  intros H. apply Forall_fmap. eapply Forall_impl; [exact H|].
  intros r Hr. simpl. rewrite format_row_texts.
  unfold Textfile.row_texts. apply Forall_fmap.
  eapply Forall_impl; [exact Hr|]. intros x Hx. simpl.
  by rewrite <- contains_mem.
Qed.

End posix.

(** ** Reading the CSV file back *)

#[local] Arguments csv.is_newline : simpl never.
#[local] Arguments csv.ends_line : simpl never.
#[local] Arguments csv.read : simpl never.

Section reading.
(** [u]: whether a carriage return ends a line for the reader; [q]: whether
    the writer quotes every line break. *)
Variables (u q : bool).
Implicit Types (f fld s rest : string) (fs : list string) (c d : ascii)
  (out : list (list string)).

(** A field that the reader takes for the writer's: unless it is quoted, it
    has no carriage return that would end the line. *)
Let safe f : Prop := u = true → q = false → csv.mem csv.CR f = false.

Lemma safe_cons c f :
  safe (String c f) →
  (u = true → q = false → Ascii.eqb c csv.CR = false) ∧ safe f.
Proof.
  unfold safe. intros H. split; intros Hu Hq; specialize (H Hu Hq);
    simpl in H; apply orb_false_elim in H as [Hc Hf]; [|done].
  by rewrite Ascii.eqb_sym.
Qed.

Lemma is_empty_append_cons s d rest :
  csv.is_empty (s +:+ String d rest) = false.
Proof. by destruct s. Qed.

Lemma ends_line_inner c rest :
  csv.is_newline u c = false → csv.is_empty rest = false →
  csv.ends_line u c rest = false.
Proof.
  unfold csv.is_newline, csv.ends_line.
  intros [-> Hcr]%orb_false_elim ->. simpl.
  destruct u; simpl in *; [by rewrite Hcr|done].
Qed.

Lemma ends_line_LF rest : csv.ends_line u csv.LF rest = true.
Proof. done. Qed.

Lemma plain_char c :
  csv.special q linesep c = false →
  (u = true → q = false → Ascii.eqb c csv.CR = false) →
  csv.is_newline u c = false ∧ Ascii.eqb c csv.quotechar = false
  ∧ Ascii.eqb c csv.delimiter = false.
Proof.
  intros (Hd & Hq & Hnl & Hlt)%special_false Hcr.
  simpl in Hlt. apply orb_false_elim in Hlt as [Hlf _].
  split_and!; try done. unfold csv.is_newline. rewrite Hlf. simpl.
  destruct u; [|done]. simpl. destruct q; [by apply Hnl|by apply Hcr].
Qed.

Lemma read_cons p c rest out :
  csv.read u p (String c rest) out
  = match csv.parse_process_char u p (Some c) with
    | Py.Raise e => Py.Raise e
    | Py.Ok p1 =>
        if csv.ends_line u c rest then
          match csv.parse_process_char u p1 None with
          | Py.Raise e => Py.Raise e
          | Py.Ok p2 =>
              match csv.state p2 with
              | csv.START_RECORD =>
                  csv.read u csv.parse_reset rest (out ++ [csv.fields p2])
              | _ => csv.read u p2 rest out
              end
          end
        else csv.read u p1 rest out
    end.
Proof. done. Qed.

(** *** Single steps of the parser *)

Lemma parse_in_field_plain c fld fs :
  csv.special q linesep c = false →
  (u = true → q = false → Ascii.eqb c csv.CR = false) →
  csv.parse_process_char u
    {| csv.state := csv.IN_FIELD; csv.field := fld; csv.fields := fs |} (Some c)
  = Py.Ok {| csv.state := csv.IN_FIELD;
             csv.field := fld +:+ String c EmptyString; csv.fields := fs |}.
Proof.
  intros Hc Hcr. destruct (plain_char c Hc Hcr) as (Hnl & Hq & Hd).
  unfold csv.parse_process_char; simpl. by rewrite Hnl, Hd.
Qed.

Lemma parse_start_plain m c fs :
  m = csv.START_RECORD ∨ m = csv.START_FIELD →
  csv.special q linesep c = false →
  (u = true → q = false → Ascii.eqb c csv.CR = false) →
  csv.parse_process_char u
    {| csv.state := m; csv.field := EmptyString; csv.fields := fs |} (Some c)
  = Py.Ok {| csv.state := csv.IN_FIELD;
             csv.field := String c EmptyString; csv.fields := fs |}.
Proof.
  intros Hm Hc Hcr. destruct (plain_char c Hc Hcr) as (Hnl & Hq & Hd).
  destruct Hm as [-> | ->]; unfold csv.parse_process_char; simpl;
    by rewrite Hnl, Hq, Hd.
Qed.

Lemma is_newline_quotechar : csv.is_newline u csv.quotechar = false.
Proof. by destruct u. Qed.

Lemma is_newline_delimiter : csv.is_newline u csv.delimiter = false.
Proof. by destruct u. Qed.

Lemma is_newline_LF : csv.is_newline u csv.LF = true.
Proof. done. Qed.

Lemma parse_start_quote m fs :
  m = csv.START_RECORD ∨ m = csv.START_FIELD →
  csv.parse_process_char u
    {| csv.state := m; csv.field := EmptyString; csv.fields := fs |}
    (Some csv.quotechar)
  = Py.Ok {| csv.state := csv.IN_QUOTED_FIELD;
             csv.field := EmptyString; csv.fields := fs |}.
Proof.
  intros [-> | ->]; unfold csv.parse_process_char; simpl;
    by rewrite is_newline_quotechar.
Qed.

Lemma parse_start_delimiter m fs :
  m = csv.START_RECORD ∨ m = csv.START_FIELD →
  csv.parse_process_char u
    {| csv.state := m; csv.field := EmptyString; csv.fields := fs |}
    (Some csv.delimiter)
  = Py.Ok {| csv.state := csv.START_FIELD;
             csv.field := EmptyString; csv.fields := fs ++ [EmptyString] |}.
Proof.
  intros [-> | ->]; unfold csv.parse_process_char; simpl;
    by rewrite is_newline_delimiter.
Qed.

Lemma parse_in_quoted_char c fld fs :
  Ascii.eqb c csv.quotechar = false →
  csv.parse_process_char u
    {| csv.state := csv.IN_QUOTED_FIELD; csv.field := fld; csv.fields := fs |}
    (Some c)
  = Py.Ok {| csv.state := csv.IN_QUOTED_FIELD;
             csv.field := fld +:+ String c EmptyString; csv.fields := fs |}.
Proof. intros Hq. unfold csv.parse_process_char; simpl. by rewrite Hq. Qed.

Lemma parse_in_quoted_quote fld fs :
  csv.parse_process_char u
    {| csv.state := csv.IN_QUOTED_FIELD; csv.field := fld; csv.fields := fs |}
    (Some csv.quotechar)
  = Py.Ok {| csv.state := csv.QUOTE_IN_QUOTED_FIELD;
             csv.field := fld; csv.fields := fs |}.
Proof. done. Qed.

Lemma parse_quote_quote fld fs :
  csv.parse_process_char u
    {| csv.state := csv.QUOTE_IN_QUOTED_FIELD; csv.field := fld;
       csv.fields := fs |} (Some csv.quotechar)
  = Py.Ok {| csv.state := csv.IN_QUOTED_FIELD;
             csv.field := fld +:+ String csv.quotechar EmptyString;
             csv.fields := fs |}.
Proof. done. Qed.

(** A delimiter ends the field, in an unquoted field and after the closing
    quote of a quoted one. *)
Lemma parse_field_delimiter m fld fs :
  m = csv.IN_FIELD ∨ m = csv.QUOTE_IN_QUOTED_FIELD →
  csv.parse_process_char u
    {| csv.state := m; csv.field := fld; csv.fields := fs |}
    (Some csv.delimiter)
  = Py.Ok {| csv.state := csv.START_FIELD;
             csv.field := EmptyString; csv.fields := fs ++ [fld] |}.
Proof.
  intros [-> | ->]; unfold csv.parse_process_char; simpl;
    by rewrite ?is_newline_delimiter.
Qed.

(** A line feed ends the field and, with the end of the line, the record. *)
Lemma parse_field_LF m fld fs :
  m = csv.START_FIELD ∨ m = csv.IN_FIELD ∨ m = csv.QUOTE_IN_QUOTED_FIELD →
  csv.parse_process_char u
    {| csv.state := m; csv.field := fld; csv.fields := fs |} (Some csv.LF)
  = Py.Ok {| csv.state := csv.EAT_CRNL;
             csv.field := EmptyString; csv.fields := fs ++ [fld] |}.
Proof. by intros [-> | [-> | ->]]. Qed.

Lemma parse_eol_eat_crnl fld fs :
  csv.parse_process_char u
    {| csv.state := csv.EAT_CRNL; csv.field := fld; csv.fields := fs |} None
  = Py.Ok {| csv.state := csv.START_RECORD; csv.field := fld;
             csv.fields := fs |}.
Proof. done. Qed.

(** *** Inside an unquoted field *)

Lemma read_in_field_plain f :
  csv.plain q linesep f = true → safe f →
  ∀ fld fs d rest out,
    csv.read u
      {| csv.state := csv.IN_FIELD; csv.field := fld; csv.fields := fs |}
      (f +:+ String d rest) out
    = csv.read u
        {| csv.state := csv.IN_FIELD; csv.field := fld +:+ f;
           csv.fields := fs |}
        (String d rest) out.
Proof.
  induction f as [|c f IH]; intros Hplain Hsafe fld fs d rest out.
  - by rewrite append_nil_l, append_nil_r.
  - apply plain_cons in Hplain as [Hc Hf].
    apply safe_cons in Hsafe as [Hcr Hsafe].
    rewrite append_cons, read_cons, parse_in_field_plain by done.
    destruct (plain_char c Hc Hcr) as (Hnl & _).
    rewrite ends_line_inner by (done || apply is_empty_append_cons).
    rewrite (IH Hf Hsafe). by rewrite append_assoc.
Qed.

(** A non-empty plain field read from the start of a record or of a field. *)
Lemma read_start_plain m c f :
  m = csv.START_RECORD ∨ m = csv.START_FIELD →
  csv.plain q linesep (String c f) = true → safe (String c f) →
  ∀ fs d rest out,
    csv.read u
      {| csv.state := m; csv.field := EmptyString; csv.fields := fs |}
      (String c f +:+ String d rest) out
    = csv.read u
        {| csv.state := csv.IN_FIELD; csv.field := String c f;
           csv.fields := fs |}
        (String d rest) out.
Proof.
  intros Hm Hplain Hsafe fs d rest out.
  apply plain_cons in Hplain as [Hc Hf].
  apply safe_cons in Hsafe as [Hcr Hsafe].
  rewrite append_cons, read_cons, parse_start_plain by done.
  destruct (plain_char c Hc Hcr) as (Hnl & _).
  rewrite ends_line_inner by (done || apply is_empty_append_cons).
  by rewrite (read_in_field_plain f Hf Hsafe).
Qed.

(** *** Inside a quoted field *)

Lemma read_in_quoted_char c fld fs rest out :
  Ascii.eqb c csv.quotechar = false →
  csv.read u
    {| csv.state := csv.IN_QUOTED_FIELD; csv.field := fld; csv.fields := fs |}
    (String c rest) out
  = csv.read u
      {| csv.state := csv.IN_QUOTED_FIELD;
         csv.field := fld +:+ String c EmptyString; csv.fields := fs |}
      rest out.
Proof.
  intros Hq. rewrite read_cons, parse_in_quoted_char by done.
  by destruct (csv.ends_line u c rest).
Qed.

Lemma quotechar_inner rest :
  csv.is_empty rest = false → csv.ends_line u csv.quotechar rest = false.
Proof. intros H. apply ends_line_inner; [apply is_newline_quotechar|done]. Qed.

(** The body of a quoted field up to its closing quote. *)
Lemma read_in_quoted f :
  ∀ fld fs rest out,
    csv.is_empty rest = false →
    csv.read u
      {| csv.state := csv.IN_QUOTED_FIELD; csv.field := fld; csv.fields := fs |}
      (csv.double_quotes f +:+ String csv.quotechar rest) out
    = csv.read u
        {| csv.state := csv.QUOTE_IN_QUOTED_FIELD;
           csv.field := fld +:+ f; csv.fields := fs |}
        rest out.
Proof.
  induction f as [|c f IH]; intros fld fs rest out Hrest.
  - rewrite append_nil_r. change (csv.double_quotes EmptyString) with EmptyString.
    rewrite append_nil_l, read_cons, parse_in_quoted_quote.
    by rewrite quotechar_inner.
  - change (csv.double_quotes (String c f))
      with (if Ascii.eqb c csv.quotechar
            then String csv.quotechar (String c (csv.double_quotes f))
            else String c (csv.double_quotes f)).
    destruct (Ascii.eqb c csv.quotechar) eqn:Hq.
    + apply Ascii.eqb_eq in Hq as ->.
      rewrite !append_cons, read_cons, parse_in_quoted_quote.
      rewrite quotechar_inner by done.
      rewrite read_cons, parse_quote_quote.
      rewrite quotechar_inner by apply is_empty_append_cons.
      rewrite (IH _ _ _ _ Hrest). by rewrite append_assoc.
    + rewrite append_cons, read_in_quoted_char by done.
      rewrite (IH _ _ _ _ Hrest). by rewrite append_assoc.
Qed.

(** *** Whole fields *)

Lemma quote_append s rest :
  csv.quote s +:+ rest = String csv.quotechar (s +:+ String csv.quotechar rest).
Proof.
  unfold csv.quote. by rewrite append_cons, append_assoc, append_cons, append_nil_l.
Qed.

Lemma delimiter_inner rest :
  csv.is_empty rest = false → csv.ends_line u csv.delimiter rest = false.
Proof. intros H. apply ends_line_inner; [apply is_newline_delimiter|done]. Qed.

(** A field followed by a delimiter. *)
Lemma read_field_delimiter m f fs rest out :
  m = csv.START_RECORD ∨ m = csv.START_FIELD →
  safe f →
  csv.is_empty rest = false →
  csv.read u {| csv.state := m; csv.field := EmptyString; csv.fields := fs |}
    (csv.join_append q linesep f +:+ String csv.delimiter rest) out
  = csv.read u
      {| csv.state := csv.START_FIELD; csv.field := EmptyString;
         csv.fields := fs ++ [f] |} rest out.
Proof.
  intros Hm Hsafe Hrest. rewrite join_append_spec.
  destruct (csv.plain q linesep f) eqn:Hf.
  - destruct f as [|c f].
    + rewrite append_nil_l, read_cons, parse_start_delimiter by done.
      by rewrite delimiter_inner.
    + rewrite read_start_plain by done.
      rewrite read_cons, parse_field_delimiter by auto.
      by rewrite delimiter_inner.
  - rewrite quote_append, read_cons, parse_start_quote by done.
    rewrite quotechar_inner by apply is_empty_append_cons.
    rewrite read_in_quoted by done.
    rewrite read_cons, parse_field_delimiter by auto.
    rewrite delimiter_inner by done. by rewrite append_nil_l.
Qed.

(** A field followed by the line feed that ends its record. *)
Lemma read_field_LF m f fs rest out :
  m = csv.START_FIELD ∨ (m = csv.START_RECORD ∧ f ≠ EmptyString) →
  safe f →
  csv.read u {| csv.state := m; csv.field := EmptyString; csv.fields := fs |}
    (csv.join_append q linesep f +:+ String csv.LF rest) out
  = csv.read u csv.parse_reset rest (out ++ [fs ++ [f]]).
Proof.
  intros Hm Hsafe. rewrite join_append_spec.
  assert (m = csv.START_RECORD ∨ m = csv.START_FIELD) as Hm'
    by (destruct Hm as [->|[-> _]]; auto).
  destruct (csv.plain q linesep f) eqn:Hf.
  - destruct f as [|c f].
    + destruct Hm as [->|[_ ?]]; [|done].
      rewrite append_nil_l, read_cons, parse_field_LF by auto.
      by rewrite ends_line_LF, parse_eol_eat_crnl.
    + rewrite read_start_plain by done.
      rewrite read_cons, parse_field_LF by auto.
      by rewrite ends_line_LF, parse_eol_eat_crnl.
  - rewrite quote_append, read_cons, parse_start_quote by done.
    rewrite quotechar_inner by apply is_empty_append_cons.
    rewrite read_in_quoted by done.
    rewrite read_cons, parse_field_LF by auto.
    rewrite ends_line_LF, parse_eol_eat_crnl. simpl. by rewrite append_nil_l.
Qed.

(** The single empty field, written as an empty quoted field. *)
Lemma read_lone_empty rest out :
  csv.read u csv.parse_reset (csv.quote EmptyString +:+ String csv.LF rest) out
  = csv.read u csv.parse_reset rest (out ++ [[EmptyString]]).
Proof.
  rewrite quote_append, append_nil_l. unfold csv.parse_reset.
  rewrite read_cons, parse_start_quote by auto.
  rewrite quotechar_inner by done.
  rewrite read_cons, parse_in_quoted_quote, quotechar_inner by done.
  rewrite read_cons, parse_field_LF by auto.
  by rewrite ends_line_LF, parse_eol_eat_crnl.
Qed.

(** The row without fields, written as an empty line. *)
Lemma read_empty_row rest out :
  csv.read u csv.parse_reset (String csv.LF rest) out
  = csv.read u csv.parse_reset rest (out ++ [[]]).
Proof. rewrite read_cons. by rewrite ends_line_LF. Qed.

(** *** Rows *)

Lemma comma_append s : csv.comma +:+ s = String csv.delimiter s.
Proof. done. Qed.

Lemma read_fields row :
  ∀ f fs rest out,
    Forall safe (f :: row) →
    csv.read u
      {| csv.state := csv.START_FIELD; csv.field := EmptyString;
         csv.fields := fs |}
      (String.concat csv.comma (csv.join_append q linesep <$> f :: row)
       +:+ String csv.LF rest) out
    = csv.read u csv.parse_reset rest (out ++ [fs ++ f :: row]).
Proof.
  induction row as [|g row IH]; intros f fs rest out [Hf Hrow]%Forall_cons.
  - rewrite fmap_cons, fmap_nil. simpl String.concat.
    by rewrite read_field_LF by auto.
  - rewrite fmap_cons, fmap_cons, concat_cons2, <- fmap_cons.
    rewrite !append_assoc, comma_append.
    rewrite read_field_delimiter by (auto || apply is_empty_append_cons).
    rewrite IH by done. by rewrite <- app_assoc.
Qed.

Lemma read_record row rest out :
  Forall safe row →
  csv.read u csv.parse_reset
    (csv.record q linesep row +:+ String csv.LF rest) out
  = csv.read u csv.parse_reset rest (out ++ [row]).
Proof.
  intros Hsafe. unfold csv.record.
  destruct row as [|f [|g row]].
  - simpl. rewrite append_nil_l. apply read_empty_row.
  - rewrite fmap_cons, fmap_nil. simpl String.concat. simpl Py.list_truthy.
    rewrite andb_true_l, join_append_is_empty.
    apply Forall_cons in Hsafe as [Hf _].
    destruct f as [|c f]; simpl csv.is_empty; cbv iota.
    + apply read_lone_empty.
    + unfold csv.parse_reset. by rewrite read_field_LF by auto.
  - rewrite fmap_cons, fmap_cons, concat_cons2, <- fmap_cons.
    simpl Py.list_truthy. rewrite andb_true_l.
    rewrite comma_append, is_empty_append_cons.
    rewrite append_assoc, append_cons.
    apply Forall_cons in Hsafe as [Hf Hrow].
    unfold csv.parse_reset.
    rewrite (read_field_delimiter csv.START_RECORD)
      by (auto || apply is_empty_append_cons).
    by rewrite read_fields.
Qed.

Lemma read_writerows rows :
  Forall (Forall safe) rows →
  ∀ out, csv.read u csv.parse_reset (csv.writerows q linesep rows) out
         = Py.Ok (out ++ rows).
Proof.
  induction 1 as [|r rows Hr _ IH]; intros out.
  - by rewrite app_nil_r.
  - simpl csv.writerows. rewrite writerow_append, read_record by done.
    rewrite IH. by rewrite <- app_assoc.
Qed.

End reading.

(** The reader returns the rows that the writer was handed, when the writer
    quotes every line break or no field has a carriage return. *)
Lemma reader_writerows (q : bool) (rows : list (list string)) :
  q = true ∨ Forall (Forall (λ f, csv.mem csv.CR f = false)) rows →
  csv.reader (csv.writerows q linesep rows) = Py.Ok rows.
Proof.
  intros H. unfold csv.reader. rewrite (read_writerows true q); [done|].
  destruct H as [->|H].
  - apply Forall_forall. intros r _. apply Forall_forall. by intros f _ _ ?.
  - eapply Forall_impl; [exact H|]. intros r Hr.
    eapply Forall_impl; [exact Hr|]. by intros f Hf _ _.
Qed.

(** Read with the line feed as the only line break, the text gives back the
    rows for every writer and every field. *)
Lemma decode_writerows (q : bool) (rows : list (list string)) :
  csv.read false csv.parse_reset (csv.writerows q linesep rows) [] = Py.Ok rows.
Proof.
  rewrite (read_writerows false q); [done|].
  apply Forall_forall. intros r _. apply Forall_forall. by intros f _ ?.
Qed.

(** ** Output *)

Section output.
Implicit Types (rt : runtime) (pdf : PDF) (fs : gmap string file)
  (df : pd.frame) (hdr : list (option string))
  (data : list (list (option string))).

Lemma structure_Ok_inv (rows : list (list (option string))) df :
  structure rows = Py.Ok df →
  ∃ hdr data, rows = hdr :: data
    ∧ (data = [] ∨ pd.width data = length hdr)
    ∧ df = {| pd.columns := hdr; pd.values := pd.to_object_array data |}.
Proof.
  destruct rows as [|hdr data]; [done|]. rewrite structure_cons.
  intros [-> Hw]%DataFrame_Ok. exists hdr, data. split_and!; [done| |done].
  destruct (decide (data = [])) as [->|Hne]; [by left|]. right. by rewrite Hw.
Qed.

(** A structured table is rectangular. *)
Lemma frame_widths (rows : list (list (option string))) df :
  structure rows = Py.Ok df →
  Forall (λ r, length r = length (pd.columns df)) (pd.values df).
Proof.
  intros (hdr & data & _ & Hw & ->)%structure_Ok_inv. simpl.
  destruct Hw as [->|<-]; [by constructor|apply to_object_array_widths].
Qed.

Lemma joined_concat (r : list (option string)) :
  String.concat csv.comma (pd.format_row r) = Textfile.joined r.
Proof. by rewrite format_row_texts. Qed.

(** What the csv reader finds in the text written for a frame. *)
Lemma reader_to_csv (q : bool) df :
  q = true
  ∨ Textfile.free_of Textfile.carriage_return (pd.columns df :: pd.values df) →
  csv.reader (pd.to_csv q df false linesep)
  = Py.Ok (Textfile.row_texts (pd.columns df)
             :: (Textfile.row_texts <$> pd.values df)).
Proof.
  intros H. unfold pd.to_csv, pd.csv_rows. rewrite reader_writerows.
  - rewrite format_row_texts. apply f_equal, f_equal.
    apply list_fmap_ext. intros i r _. apply format_row_texts.
  - destruct H as [->|H]; [by left|right].
    by apply (free_of_mem csv.CR (pd.columns df :: pd.values df)).
Qed.

End output.

(** C5.  The two-page scenario: the aggregate, the structured table with its
    field names and records, and the CSV text and sheet written by the run. *)
Theorem two_page_scenario (rt : runtime) (fs : gmap string file) :
  let df := {| pd.columns := [Some "Name"; Some "Amount"];
               pd.values := [[Some "A"; Some "10"]; [Some "B"; Some "20"]] |} in
  all_rows two_pages
  = [[Some "Name"; Some "Amount"]; [Some "A"; Some "10"]; [Some "B"; Some "20"]]
  ∧ structure (all_rows two_pages) = Py.Ok df
  ∧ pd.records df
    = [[(Some "Name", Some "A"); (Some "Amount", Some "10")];
       [(Some "Name", Some "B"); (Some "Amount", Some "20")]]
  ∧ script rt two_pages fs
    = (<[xlsx_path := Workbook [[Some "Name"; Some "Amount"];
                                [Some "A"; Some "10"]; [Some "B"; Some "20"]]]>
         (<[csv_path := Text ("Name,Amount" +:+ NL +:+ "A,10" +:+ NL
                              +:+ "B,20" +:+ NL)]> fs),
       Py.Ok df).
Proof.
  intros df. split_and!; try reflexivity.
  destruct rt as [[] leftover]; reflexivity.
Qed.

(** C6 (as amended).  After a successful run the field names of the frame are
    the first extracted row, and the sheet has one row per record under its
    header row, each of as many cells as the first extracted row: no index
    column.  The CSV file has one line per record under its first line when
    no cell contains a line break (a line feed or a carriage return).  Its
    first line is the first extracted row's values joined by commas when
    that row needs no quoting.  When no row needs quoting, every line is its
    row's values joined by commas, with no index field. *)
Theorem csv_lines_of_run (rt : runtime) (pdf : PDF)
    (fs fs' : gmap string file) (df : pd.frame) :
  script rt pdf fs = (fs', Py.Ok df) →
  ∃ hdr rest text sheet,
    all_rows pdf = hdr :: rest
    ∧ pd.columns df = hdr
    ∧ fs' !! csv_path = Some (Text text)
    ∧ fs' !! xlsx_path = Some (Workbook sheet)
    ∧ length sheet = S (length (pd.values df))
    ∧ Forall (λ r, length r = length hdr) sheet
    ∧ (Textfile.free_of Textfile.line_feed (hdr :: pd.values df) →
       Textfile.free_of Textfile.carriage_return (hdr :: pd.values df) →
       length (Textfile.lines text) = S (length (pd.values df)))
    ∧ (Textfile.needs_no_quoting hdr →
       head (Textfile.lines text) = Some (Textfile.joined hdr))
    ∧ (Forall Textfile.needs_no_quoting (hdr :: pd.values df) →
       Textfile.lines text = Textfile.joined <$> hdr :: pd.values df).
Proof.
  intros (Hdf & sheet & Hx & ->)%script_Ok_inv.
  pose proof (frame_widths _ _ Hdf) as Hrect.
  destruct (to_excel_dims _ _ Hx Hrect) as [Hlen Hw].
  destruct (structure_Ok_inv _ _ Hdf) as (hdr & data & Hagg & _ & ->).
  cbn [pd.columns pd.values] in *.
  set (vals := pd.to_object_array data) in *.
  exists hdr, data. eexists _, sheet. split_and!; try done.
  - rewrite lookup_insert_ne by done. by rewrite lookup_insert_eq.
  - by rewrite lookup_insert_eq.
  - intros Hlf Hcr. unfold pd.to_csv, pd.csv_rows. cbn [pd.columns pd.values].
    rewrite (lines_writerows_records _ (pd.format_row hdr :: (pd.format_row <$> vals))).
    + by rewrite length_fmap, length_cons, length_fmap.
    + by apply (free_of_mem csv.LF (hdr :: vals)).
    + by apply (free_of_mem csv.CR (hdr :: vals)).
  - intros Hq. unfold pd.to_csv, pd.csv_rows. cbn [pd.columns pd.values].
    rewrite first_line_writerows.
    + apply (needs_no_quoting_plain_row (csv_quotes_newlines rt)) in Hq.
      by rewrite (record_plain _ _ _ Hq), joined_concat.
    + apply needs_no_quoting_no_break; auto.
    + apply needs_no_quoting_no_break; auto.
  - intros Hq. unfold pd.to_csv, pd.csv_rows. cbn [pd.columns pd.values].
    rewrite <- fmap_cons.
    rewrite (lines_writerows _ (hdr :: vals) Hq).
    apply list_fmap_ext. intros i r _. apply joined_concat.
Qed.

Lemma csv_lines_of_run_witness :
  script cpython_3_13 two_pages ∅
  = ((script cpython_3_13 two_pages ∅).1,
     Py.Ok {| pd.columns := name_amount;
              pd.values := [[Some "A"; Some "10"]; [Some "B"; Some "20"]] |})
  ∧ ∃ text, (script cpython_3_13 two_pages ∅).1 !! csv_path = Some (Text text)
      ∧ Textfile.lines text = ["Name,Amount"; "A,10"; "B,20"].
Proof.
  split; [reflexivity|].
  destruct (csv_lines_of_run cpython_3_13 two_pages ∅ _ _ eq_refl)
    as (hdr & rest & text & sheet & Hagg & Hcols & Hcsv & _ & _ & _ & _ & _
        & Hlines).
  exists text. split; [exact Hcsv|].
  simpl in Hcols. subst hdr. apply Hlines.
  repeat constructor; done.
Defined.

(** C6 fails as stated: the run on [quoted_cells] succeeds with one record,
    yet the first line of the CSV file is not the first row's values joined
    by commas, because the label with a comma is written between quotes, and
    the file has three lines, because the quoted second field of the record
    keeps its line feed.  The run on [carriage_return_cell] succeeds with
    one record too, and its CSV file has three lines, because the second
    field of the record keeps its carriage return, quoted or not. *)
Lemma quoting_breaks_lines :
  ((script cpython_3_13 quoted_cells ∅).2
   = Py.Ok {| pd.columns := [Some "Item, kind"; Some "Note"];
              pd.values := [[Some "A"; Some ("x" +:+ NL +:+ "y")]] |}
   ∧ ∃ text, (script cpython_3_13 quoted_cells ∅).1 !! csv_path
             = Some (Text text)
       ∧ head (Textfile.lines text) ≠ Some "Item, kind,Note"
       ∧ length (Textfile.lines text) = 3
       ∧ length (Textfile.lines text) ≠ 1 + 1)
  ∧ ∀ rt fs, ∃ text,
      (script rt carriage_return_cell fs).2
      = Py.Ok {| pd.columns := [Some "Item"; Some "Note"];
                 pd.values :=
                   [[Some "A";
                     Some (String "x" (String "013" (String "y" EmptyString)))]] |}
      ∧ (script rt carriage_return_cell fs).1 !! csv_path = Some (Text text)
      ∧ length (Textfile.lines text) = 3
      ∧ length (Textfile.lines text) ≠ 1 + 1.
Proof.
  split.
  - split; [reflexivity|]. eexists. split; [vm_compute; reflexivity|].
    split_and!; [vm_compute; discriminate|reflexivity|vm_compute; lia].
  - intros [[] leftover] fs; eexists; (split; [reflexivity|]);
      (split; [apply script_csv_written; reflexivity|]);
      (split; [reflexivity|vm_compute; lia]).
Qed.




(** C9 (as amended).  When the aggregate consists of a single row, the
    structuring statement succeeds with that row as the field names and no
    records, and the CSV file is written: it has a single line when no field
    name contains a line break, and it is the field names joined by commas
    on one line when they need no quoting.  When a sheet can store the field
    names, the run succeeds and the sheet holds the header row alone. *)
Theorem header_only_is_structured (rt : runtime) (pdf : PDF)
    (fs : gmap string file) (hdr : row) :
  all_rows pdf = [hdr] →
  let df := {| pd.columns := hdr; pd.values := [] |} in
  structure (all_rows pdf) = Py.Ok df
  ∧ ∃ text,
      (script rt pdf fs).1 !! csv_path = Some (Text text)
      ∧ (Textfile.free_of Textfile.line_feed [hdr] →
         Textfile.free_of Textfile.carriage_return [hdr] →
         length (Textfile.lines text) = 1)
      ∧ (Textfile.needs_no_quoting hdr →
         text = Textfile.joined hdr +:+ NL)
      ∧ (sheet_ready hdr [] →
         script rt pdf fs
         = (<[xlsx_path := Workbook [hdr]]> (<[csv_path := Text text]> fs),
            Py.Ok df)).
Proof.
  intros Hagg df.
  assert (structure (all_rows pdf) = Py.Ok df) as Hdf by (by rewrite Hagg).
  split; [done|]. eexists. split_and!.
  - by apply script_csv_written.
  - intros Hlf Hcr. unfold pd.to_csv, pd.csv_rows. cbn [pd.columns pd.values].
    rewrite (lines_writerows_records _ [pd.format_row hdr]); [done|..].
    + by apply (free_of_mem csv.LF [hdr]).
    + by apply (free_of_mem csv.CR [hdr]).
  - intros Hq%(needs_no_quoting_plain_row (csv_quotes_newlines rt)).
    unfold pd.to_csv, pd.csv_rows, csv.writerows, csv.writerow. simpl.
    by rewrite append_nil_r, (record_plain _ _ _ Hq), joined_concat.
  - intros Hready. apply (script_Ok rt pdf fs df [hdr]); [done|].
    exact (to_excel_ready hdr [] Hready).
Qed.

Lemma header_only_is_structured_witness :
  all_rows header_only = [name_amount]
  ∧ structure (all_rows header_only)
    = Py.Ok {| pd.columns := name_amount; pd.values := [] |}.
Proof.
  split; [reflexivity|].
  exact (proj1 (header_only_is_structured cpython_3_13 header_only ∅
                  name_amount eq_refl)).
Defined.

(** C9 fails as stated: the aggregate of [header_only] is a single row, the
    structuring statement does not raise, and both files are written. *)
Lemma header_only_is_written :
  all_rows header_only = [name_amount]
  ∧ (script cpython_3_13 header_only ∅).2
    = Py.Ok {| pd.columns := name_amount; pd.values := [] |}
  ∧ (script cpython_3_13 header_only ∅).1 !! csv_path
    = Some (Text ("Name,Amount" +:+ NL))
  ∧ (script cpython_3_13 header_only ∅).1 !! xlsx_path
    = Some (Workbook [name_amount]).
Proof. split_and!; [reflexivity|reflexivity|vm_compute; reflexivity..]. Qed.

(** ** Documents of uniform pages *)

Section uniform.
Variables K R : nat.

Lemma uniform_pages_rows (ps : list Page) :
  Forall (uniform_page K R) ps →
  length (concat (omap extract_table ps)) = length ps * R
  ∧ Forall (λ r, length r = K) (concat (omap extract_table ps)).
Proof.
  induction 1 as [|p ps (t & Ht & Hlen & Hw) _ [IHlen IHw]]; [done|].
  simpl. rewrite Ht. simpl. split.
  - rewrite length_app, Hlen. f_equal. exact IHlen.
  - apply Forall_app. split; [done|exact IHw].
Qed.

End uniform.




(** * Further properties of the script *)

Section outcome.
Implicit Types (rt : runtime) (pdf : PDF) (fs : gmap string file).

Lemma script_lookup_other rt pdf fs (p : string) :
  p ≠ csv_path → p ≠ xlsx_path → (script rt pdf fs).1 !! p = fs !! p.
Proof.
  intros Hc Hx. unfold script.
  destruct (structure (all_rows pdf)) as [df|e]; [|done].
  destruct (pd.to_excel df false) as [sheet|e]; simpl.
  - by rewrite !lookup_insert_ne.
  - destruct (excel_leftover rt df); by rewrite ?lookup_insert_ne.
Qed.

Lemma outputs_insert_insert fs (a a' b b' : file) :
  <[xlsx_path := a]> (<[csv_path := b]>
    (<[xlsx_path := a']> (<[csv_path := b']> fs)))
  = <[xlsx_path := a]> (<[csv_path := b]> fs).
Proof.
  apply map_eq. intros p. rewrite !lookup_insert.
  repeat case_decide; done.
Qed.

Lemma script_again rt pdf fs :
  script rt pdf (script rt pdf fs).1 = script rt pdf fs.
Proof.
  unfold script. destruct (structure (all_rows pdf)) as [df|e]; [|done].
  destruct (pd.to_excel df false) as [sheet|e]; simpl;
    [by rewrite outputs_insert_insert|].
  destruct (excel_leftover rt df); simpl.
  - by rewrite outputs_insert_insert.
  - by rewrite insert_insert_eq.
Qed.

End outcome.

(** X2.  After a successful run the table is rectangular: every record has
    exactly one value per field name; and every row of the aggregate but the
    first has become a record. *)
Theorem frame_is_rectangular (rt : runtime) (pdf : PDF)
    (fs fs' : gmap string file) (df : pd.frame) :
  script rt pdf fs = (fs', Py.Ok df) →
  Forall (λ r, length r = length (pd.columns df)) (pd.values df)
  ∧ S (length (pd.values df)) = length (all_rows pdf).
Proof.
  intros [Hdf _]%script_Ok_inv.
  destruct (structure_Ok_inv _ _ Hdf) as (hdr & data & -> & Hw & ->). simpl.
  split; [|by rewrite to_object_array_length].
  destruct Hw as [->|<-]; [by constructor|apply to_object_array_widths].
Qed.

Lemma frame_is_rectangular_witness :
  script cpython_3_13 short_row ∅
  = ((script cpython_3_13 short_row ∅).1,
     Py.Ok {| pd.columns := name_amount;
              pd.values := [[Some "A"; Some "10"]; [Some "B"; None]] |})
  ∧ Forall (λ r, length r = 2) [[Some "A"; Some "10"]; [Some "B"; None]]
  ∧ 3 = length (all_rows short_row).
Proof.
  split; [reflexivity|].
  exact (frame_is_rectangular cpython_3_13 short_row ∅ _ _ eq_refl).
Defined.

(** ** Files *)

(** X3.  When the input path is missing or holds a document, a run of the
    program changes no file other than the two output files, whether it
    succeeds or fails; the input document in particular is left as it was. *)
Theorem run_touches_only_outputs (rt : runtime) (fs : gmap string file)
    (p : string) :
  fs !! input_path = None ∨ (∃ pdf, fs !! input_path = Some (Pdf pdf)) →
  p ≠ csv_path → p ≠ xlsx_path →
  (main rt fs).1 !! p = fs !! p.
Proof.
  intros [Hnone|[pdf Hpdf]] Hc Hx.
  - by rewrite (main_missing_document rt fs Hnone).
  - rewrite (main_opens_document rt pdf fs Hpdf). by apply script_lookup_other.
Qed.

Lemma run_touches_only_outputs_witness :
  (fresh !! input_path = None
   ∨ ∃ pdf, fresh !! input_path = Some (Pdf pdf))
  ∧ input_path ≠ csv_path ∧ input_path ≠ xlsx_path
  ∧ (main cpython_3_13 fresh).1 !! input_path = Some (Pdf two_pages).
Proof.
  assert (fresh !! input_path = None
          ∨ ∃ pdf, fresh !! input_path = Some (Pdf pdf)) as H
    by (right; exists two_pages; reflexivity).
  split; [exact H|]. split; [done|]. split; [done|].
  exact (run_touches_only_outputs cpython_3_13 fresh input_path H
           ltac:(done) ltac:(done)).
Defined.

(** X4.  Running the program again on the files the first run left changes
    nothing: the second run opens the same document, has the same outcome
    and leaves the same files (a workbook being its cell grid). *)
Theorem rerun_changes_nothing (rt : runtime) (fs : gmap string file) :
  main rt (main rt fs).1 = main rt fs.
Proof.
  unfold main at 2 3. destruct (fs !! input_path) as [[pdf|text|sheet]|] eqn:H.
  - assert ((script rt pdf fs).1 !! input_path = Some (Pdf pdf)) as H'
      by (by rewrite script_lookup_other).
    rewrite (main_opens_document rt pdf _ H'). apply script_again.
  - simpl. unfold main. by rewrite H.
  - simpl. unfold main. by rewrite H.
  - simpl. unfold main. by rewrite H.
Qed.

(** X5.  A successful run replaces whatever the two output paths held: the
    files after the run and its outcome do not depend on the earlier contents
    of those paths. *)
Theorem stale_outputs_are_replaced (rt : runtime) (pdf : PDF)
    (fs fs' : gmap string file) (df : pd.frame) (old_csv old_xlsx : file) :
  script rt pdf fs = (fs', Py.Ok df) →
  script rt pdf (<[xlsx_path := old_xlsx]> (<[csv_path := old_csv]> fs))
  = (fs', Py.Ok df).
Proof.
  intros (Hdf & sheet & Hx & ->)%script_Ok_inv.
  rewrite (script_Ok _ _ _ _ _ Hdf Hx).
  by rewrite outputs_insert_insert.
Qed.

Lemma stale_outputs_are_replaced_witness :
  script cpython_3_13 two_pages fresh
  = ((script cpython_3_13 two_pages fresh).1,
     Py.Ok {| pd.columns := name_amount;
              pd.values := [[Some "A"; Some "10"]; [Some "B"; Some "20"]] |})
  ∧ (script cpython_3_13 two_pages
       (<[xlsx_path := Workbook [[Some "old"]]]>
          (<[csv_path := Text "old"]> fresh))).1
    = (script cpython_3_13 two_pages fresh).1.
Proof.
  split; [reflexivity|].
  exact (f_equal fst
           (stale_outputs_are_replaced cpython_3_13 two_pages fresh _ _
              (Text "old") (Workbook [[Some "old"]]) eq_refl)).
Defined.

(** ** Pages *)

Section pages.
Implicit Types (ps before after : list Page) (t : list row).

Lemma script_same_aggregate (rt : runtime) (pdf1 pdf2 : PDF)
    (fs : gmap string file) :
  all_rows pdf1 = all_rows pdf2 → script rt pdf1 fs = script rt pdf2 fs.
Proof. intros H. unfold script. by rewrite H. Qed.

Lemma elem_of_page_rows ps (p : Page) t (r : list (option string)) :
  p ∈ ps → extract_table p = Some t → r ∈ t →
  r ∈ concat (omap extract_table ps).
Proof.
  intros Hp Ht Hr. induction Hp as [p ps|p q ps _ IH]; simpl.
  - rewrite Ht. simpl. apply elem_of_app. by left.
  - destruct (extract_table q); simpl; [|by apply IH].
    apply elem_of_app. right. by apply IH.
Qed.

Lemma all_rows_after_falsy before ps :
  Forall (λ p, Py.truthy (extract_table p) = false) before →
  all_rows {| pages := before ++ ps |} = all_rows {| pages := ps |}.
Proof.
  intros H. by rewrite all_rows_app, (all_rows_falsy before H).
Qed.

End pages.

(** X6.  Where the pages break does not matter: a table cut in two over
    consecutive pages gives the same run as the whole table on one page. *)
Theorem page_break_is_invisible (rt : runtime) (before after : list Page)
    (t1 t2 : list (list (option string))) (fs : gmap string file) :
  script rt
    {| pages := before ++ {| extract_table := Some (t1 ++ t2) |} :: after |} fs
  = script rt
      {| pages := before ++ {| extract_table := Some t1 |}
                    :: {| extract_table := Some t2 |} :: after |} fs.
Proof.
  apply script_same_aggregate. rewrite !all_rows_concat. simpl.
  rewrite !omap_app. simpl. rewrite !concat_app. simpl.
  by rewrite <- app_assoc.
Qed.

(** X7.  Only the first row of the aggregate is a header.  In a document of
    N pages whose tables all have R+1 rows of K cells, the first row of each
    being that page's header, the structuring statement succeeds with
    N*(R+1)-1 records: the header row of every page after the first is a
    record.  A run that succeeds has that structured table. *)
Theorem repeated_headers_are_records (K R : nat) (pdf : PDF)
    (p1 : Page) (ps : list Page) (hdr : row) (rows1 : list row) :
  pages pdf = p1 :: ps →
  extract_table p1 = Some (hdr :: rows1) →
  length hdr = K →
  length rows1 = R →
  Forall (λ r, length r = K) rows1 →
  Forall (uniform_page K (S R)) ps →
  ∃ df,
    structure (all_rows pdf) = Py.Ok df
    ∧ pd.columns df = hdr
    ∧ length (pd.values df) = length (pages pdf) * S R - 1
    ∧ (∀ p h t, p ∈ ps → extract_table p = Some (h :: t) → h ∈ pd.values df)
    ∧ ∀ rt fs fs' df', script rt pdf fs = (fs', Py.Ok df') → df' = df.
Proof.
  intros Hpages Hp1 Hhdr Hrows1 Hw1 Hps.
  destruct (uniform_pages_rows K (S R) ps Hps) as [Hlen Hw].
  set (data := rows1 ++ concat (omap extract_table ps)).
  assert (all_rows pdf = hdr :: data) as Hagg.
  { rewrite all_rows_concat, Hpages. simpl. by rewrite Hp1. }
  assert (Forall (λ r, length r = K) data) as Hwd by (by apply Forall_app).
  set (df := {| pd.columns := hdr; pd.values := data |}).
  assert (structure (all_rows pdf) = Py.Ok df) as Hdf.
  { rewrite Hagg, structure_cons. apply DataFrame_uniform. by rewrite Hhdr. }
  exists df. split_and!; [done|done| | |].
  - simpl. unfold data. rewrite length_app, Hpages, Hlen, Hrows1. simpl. lia.
  - intros p h t Hp Ht. simpl. unfold data. apply elem_of_app. right.
    eapply elem_of_page_rows; [done..|left].
  - intros rt fs fs' df' [Hdf' _]%script_Ok_inv. congruence.
Qed.

Lemma repeated_headers_are_records_witness :
  pages repeated_header
  = [page_with [name_amount; [Some "A"; Some "10"]];
     page_with [name_amount; [Some "B"; Some "20"]]]
  ∧ ∃ df, structure (all_rows repeated_header) = Py.Ok df
      ∧ length (pd.values df) = 2 * 2 - 1
      ∧ name_amount ∈ pd.values df.
Proof.
  split; [reflexivity|].
  destruct (repeated_headers_are_records 2 1 repeated_header
              (page_with [name_amount; [Some "A"; Some "10"]])
              [page_with [name_amount; [Some "B"; Some "20"]]]
              name_amount [[Some "A"; Some "10"]])
    as (df & Hdf & _ & Hrecords & Hin & _).
  - reflexivity.
  - reflexivity.
  - reflexivity.
  - reflexivity.
  - repeat constructor.
  - repeat constructor.
    exists [name_amount; [Some "B"; Some "20"]]. repeat constructor.
  - exists df. split_and!; [assumption..|].
    apply (Hin (page_with [name_amount; [Some "B"; Some "20"]])
               name_amount [[Some "B"; Some "20"]]); [left|reflexivity].
Defined.

(** X8.  The field names come from the first page that has a table: pages
    before it without a table (none detected, or an empty one) are passed
    over, and the first row of that page's table is the first row of the
    aggregate and, when the run succeeds, the field names of the table. *)
Theorem header_is_first_row_of_first_table (rt : runtime) (pdf : PDF)
    (fs : gmap string file) (before after : list Page) (p : Page)
    (hdr : row) (t : list row) :
  pages pdf = before ++ p :: after →
  Forall (λ p, Py.truthy (extract_table p) = false) before →
  extract_table p = Some (hdr :: t) →
  head (all_rows pdf) = Some hdr
  ∧ ∀ fs' df, script rt pdf fs = (fs', Py.Ok df) → pd.columns df = hdr.
Proof.
  intros Hpages Hbefore Hp.
  assert (all_rows pdf = hdr :: t ++ all_rows {| pages := after |}) as Hagg.
  { destruct pdf as [ps]. simpl in Hpages. subst ps.
    rewrite (all_rows_after_falsy _ _ Hbefore), !all_rows_concat. simpl.
    by rewrite Hp. }
  split; [by rewrite Hagg|].
  intros fs' df [Hdf _]%script_Ok_inv.
  destruct (structure_Ok_inv _ _ Hdf) as (hdr' & data & Hrows & _ & ->).
  rewrite Hagg in Hrows. by injection Hrows as <- _.
Qed.

Lemma header_is_first_row_of_first_table_witness :
  pages late_table
  = [page_without; page_with []]
      ++ page_with [name_amount; [Some "A"; Some "10"]] :: []
  ∧ head (all_rows late_table) = Some name_amount.
Proof.
  split; [reflexivity|].
  refine (proj1 (header_is_first_row_of_first_table cpython_3_13 late_table ∅
                   [page_without; page_with []] []
                   (page_with [name_amount; [Some "A"; Some "10"]])
                   name_amount [[Some "A"; Some "10"]] eq_refl _ eq_refl)).
  repeat constructor.
Defined.

(** ** The CSV text *)

(** X9.  The CSV text determines the table as text: two tables are written
    as the same text exactly when they have the same field names and the
    same records once every missing value is taken as the empty text.  No
    comma, quote or line break inside a cell can make two different tables
    collide; a missing value and an empty text do. *)
Theorem csv_text_determines_table (quote_newlines : bool) (df1 df2 : pd.frame) :
  pd.to_csv quote_newlines df1 false linesep
  = pd.to_csv quote_newlines df2 false linesep
  ↔ pd.format_row (pd.columns df1) = pd.format_row (pd.columns df2)
    ∧ pd.format_row <$> pd.values df1 = pd.format_row <$> pd.values df2.
Proof.
  unfold pd.to_csv, pd.csv_rows. split.
  - intros H. apply (f_equal (λ text, csv.read false csv.parse_reset text [])) in H.
    rewrite !decode_writerows in H. by injection H.
  - by intros [-> ->].
Qed.
